(** * pytest-embedded-serial-esp: [EspSerial]

    A shallow embedding of
    [pytest_embedded_serial_esp/serial.py]: the port discovery and target
    validation of [EspSerial.__init__], the port-target cache hook
    [_post_init], and the [use_esptool] decorator with the methods built
    on it ([hard_reset], [_start]).

    Python values are modelled as follows.
    - [str] is [string]; comparison of two [str] is the byte-wise
      lexicographic order [String.ltb] (on UTF-8 text this is the code
      point order Python uses).
    - [Optional[str]] is [option string].
    - [Dict[str, str]] is an association list in insertion order with
      unique keys, since [__init__] iterates [items()] in that order.
    - A [dict] object that is passed around and mutated lives in a heap
      of dictionaries and is named by its index there.
    - [set] is stdpp's [gset]; the order in which [list(set)] enumerates
      it is whatever [elements] gives, as unspecified as Python's.
    - Exceptions and the calls into esptool and pyserial are threaded
      through a state-and-error monad over a [World] that keeps a log of
      every external call with its outcome. *)

From Stdlib Require Import String Ascii ZArith List Permutation Sorted Lia.
From stdpp Require Import base option list sorting gmap strings.

Local Open Scope string_scope.
Local Open Scope Z_scope.
Local Open Scope list_scope.
Local Open Scope stdpp_scope.

(** ** Python strings *)

(** Truth value of an [Optional[str]]: [None] and [''] are falsy. *)
Definition truthy (o : option string) : bool :=
  match o with
  | None => false
  | Some s => negb (String.eqb s "")
  end.

(** [a or b] on two [Optional[str]]. *)
Definition py_or (a b : option string) : option string :=
  if truthy a then a else b.

(** [x in l] where [l] is a list of [str] and [x] may be [None]: [None]
    equals no string. *)
Definition py_in (x : option string) (l : list string) : bool :=
  match x with
  | None => false
  | Some s => existsb (String.eqb s) l
  end.

(** [str.lower()] on ASCII text (chip names are ASCII). *)
Definition ascii_lower (c : ascii) : ascii :=
  let n := nat_of_ascii c in
  if ((65 <=? n)%nat && (n <=? 90)%nat)%bool then ascii_of_nat (n + 32) else c.

Fixpoint lower (s : string) : string :=
  match s with
  | EmptyString => EmptyString
  | String c s' => String (ascii_lower c) (lower s')
  end.

(** [s.replace(old, new)] for a one-character [old]. *)
Fixpoint replace_char (old : ascii) (new : string) (s : string) : string :=
  match s with
  | EmptyString => EmptyString
  | String c s' =>
      if Ascii.eqb c old then new +:+ replace_char old new s'
      else String c (replace_char old new s')
  end.

(** ** [list.sort]

    Python's sort is stable and orders by [<] on the keys.  On a total
    order every stable sort returns the same list; insertion from the
    right is the one written here. *)

Section list_sort.
Context {A K : Type} (lt : K -> K -> bool) (key : A -> K).

Fixpoint sort_insert (x : A) (l : list A) : list A :=
  match l with
  | [] => [x]
  | y :: l' =>
      if lt (key y) (key x) then y :: sort_insert x l' else x :: y :: l'
  end.

Definition list_sort (l : list A) : list A := foldr sort_insert [] l.
End list_sort.

(** [False < True] is the only strict inequality between two [bool]. *)
Definition bool_lt (a b : bool) : bool := negb a && b.

(** ** [Dict[str, str]] *)

Abbreviation dict := (list (string * string)).

Definition dict_keys (d : dict) : list string := d.*1.

Fixpoint dict_get (d : dict) (k : string) : option string :=
  match d with
  | [] => None
  | (k', v) :: d' => if String.eqb k' k then Some v else dict_get d' k
  end.

(** [d[k] = v]: an existing key keeps its place, a new key goes last. *)
Fixpoint dict_set (d : dict) (k v : string) : dict :=
  match d with
  | [] => [(k, v)]
  | (k', v') :: d' =>
      if String.eqb k' k then (k', v) :: d' else (k', v') :: dict_set d' k v
  end.

(** The invariant of a Python dictionary: one entry per key. *)
Definition dict_wf (d : dict) : Prop := NoDup (dict_keys d).

(** ** Candidate ports ([__init__], the [port is None] branch) *)

(** [list(set(available_ports) - set(self.occupied_ports.keys()))] followed
    by [ports.sort()]. *)
Definition free_ports (available occupied : list string) : gset string :=
  list_to_set available ∖ list_to_set occupied.

Definition sorted_ports (available occupied : list string) : list string :=
  list_sort String.ltb id (elements (free_ports available occupied)).

(** One round of the cache loop: [ports.sort(key=lambda x: x == _port)]
    when the cached target is the requested one and the port is a
    candidate. *)
Definition prioritize_step (esptool_target : option string)
    (ports : list string) (item : string * string) : list string :=
  let '(_port, _target) := item in
  if (bool_decide (Some _target = esptool_target)
      && bool_decide (_port ∈ ports))%bool
  then list_sort bool_lt (fun x => String.eqb x _port) ports
  else ports.

(** [if esptool_target: for _port, _target in cache.items(): ...] *)
Definition prioritize (esptool_target : option string) (cache : dict)
    (ports : list string) : list string :=
  if truthy esptool_target
  then foldl (prioritize_step esptool_target) ports cache
  else ports.

(** The value of [ports] when [port is None]. *)
Definition candidate_ports (esptool_target : option string) (cache : dict)
    (available occupied : list string) : list string :=
  prioritize esptool_target cache (sorted_ports available occupied).

(** ** Objects, exceptions and the log of external calls *)

(** An [esptool.ESPLoader] (ROM loader or stub loader), as far as this
    module reads it. *)
Record ESPLoader : Type := {
  CHIP_NAME : string;
  serial_port : string;
  IS_STUB : bool;
}.

(** What [Serial.get_settings()] returns and [apply_settings] takes: a
    dictionary of line parameters. *)
Definition PortSettings : Type := list (string * Z).

Inductive value_error : Type :=
| NotSupportTarget (raw_version : string) (esptool_target : option string)
    (chips : list string)
| CouldntAutoDetect.

Inductive exn : Type :=
| ValueError (v : value_error)
| AttributeError (attr : string)
| FatalError (msg : string)
| SerialException (msg : string).

Inductive outcome (A : Type) : Type :=
| Ret (a : A)
| Raise (e : exn).
Arguments Ret {A} a.
Arguments Raise {A} e.

Definition error_of {A} (r : outcome A) : option exn :=
  match r with
  | Ret _ => None
  | Raise e => Some e
  end.

(** The calls that leave this module.  [stub_hard_reset_call None] stands
    for the attempt to call [hard_reset] on a [self.stub] that is [None]. *)
Inductive call : Type :=
| get_port_list_call
| get_default_connected_device_call (ports : list string)
    (port : option string) (connect_attempts initial_baud : Z)
    (chip : option string)
| loader_port_close_call
| stop_redirect_call
| start_redirect_call
| serial_for_url_call (url : string)
| get_settings_call
| detect_chip_call (baud : Z)
| connect_call (mode : string)
| run_stub_call
| func_call
| stub_hard_reset_call (stub : option ESPLoader)
| apply_settings_call (d : PortSettings)
| close_call.

Record event : Type := Event {
  ev_call : call;
  ev_error : option exn;
}.

(** The raw [pyserial] object [_s] of a privileged session. *)
Record RawSerial : Type := {
  is_open : bool;
  settings : PortSettings;
}.

(** The attributes of an [EspSerial] instance.  [port], [baud] and
    [port_config] belong to the base class [Serial]. *)
Record EspSerial : Type := {
  _port_target_cache : nat;
  esp : option ESPLoader;
  stub : option ESPLoader;
  target : string;
  skip_autoflash : bool;
  erase_all : bool;
  esptool_baud : Z;
  port : string;
  baud : Z;
  port_config : PortSettings;
}.

Definition set_cache (r : nat) (s : EspSerial) : EspSerial :=
  {| _port_target_cache := r; esp := esp s; stub := stub s;
     target := target s; skip_autoflash := skip_autoflash s;
     erase_all := erase_all s; esptool_baud := esptool_baud s;
     port := port s; baud := baud s; port_config := port_config s |}.

Definition set_esp (x : option ESPLoader) (s : EspSerial) : EspSerial :=
  {| _port_target_cache := _port_target_cache s; esp := x; stub := stub s;
     target := target s; skip_autoflash := skip_autoflash s;
     erase_all := erase_all s; esptool_baud := esptool_baud s;
     port := port s; baud := baud s; port_config := port_config s |}.

Definition set_stub (x : option ESPLoader) (s : EspSerial) : EspSerial :=
  {| _port_target_cache := _port_target_cache s; esp := esp s; stub := x;
     target := target s; skip_autoflash := skip_autoflash s;
     erase_all := erase_all s; esptool_baud := esptool_baud s;
     port := port s; baud := baud s; port_config := port_config s |}.

Definition set_flags (t : string) (sa ea : bool) (eb : Z) (s : EspSerial)
    : EspSerial :=
  {| _port_target_cache := _port_target_cache s; esp := esp s;
     stub := stub s; target := t; skip_autoflash := sa; erase_all := ea;
     esptool_baud := eb; port := port s; baud := baud s;
     port_config := port_config s |}.

Definition set_port_baud (p : string) (b : Z) (s : EspSerial) : EspSerial :=
  {| _port_target_cache := _port_target_cache s; esp := esp s;
     stub := stub s; target := target s; skip_autoflash := skip_autoflash s;
     erase_all := erase_all s; esptool_baud := esptool_baud s;
     port := p; baud := b; port_config := port_config s |}.

(** The process as this module sees it. *)
Record World : Type := {
  heap : list dict;              (* the dictionaries alive, by reference *)
  occupied_ports : list string;  (* keys of [Serial.occupied_ports] *)
  redirect_running : bool;       (* the background forwarding session *)
  raw : RawSerial;               (* the raw connection [_s] *)
  trace : list event;            (* external calls so far, oldest first *)
  self : EspSerial;
}.

Definition with_heap (h : list dict) (w : World) : World :=
  {| heap := h; occupied_ports := occupied_ports w;
     redirect_running := redirect_running w; raw := raw w;
     trace := trace w; self := self w |}.

Definition with_redirect (b : bool) (w : World) : World :=
  {| heap := heap w; occupied_ports := occupied_ports w;
     redirect_running := b; raw := raw w; trace := trace w;
     self := self w |}.

Definition with_raw (x : RawSerial) (w : World) : World :=
  {| heap := heap w; occupied_ports := occupied_ports w;
     redirect_running := redirect_running w; raw := x; trace := trace w;
     self := self w |}.

Definition with_trace (t : list event) (w : World) : World :=
  {| heap := heap w; occupied_ports := occupied_ports w;
     redirect_running := redirect_running w; raw := raw w; trace := t;
     self := self w |}.

Definition with_self (s : EspSerial) (w : World) : World :=
  {| heap := heap w; occupied_ports := occupied_ports w;
     redirect_running := redirect_running w; raw := raw w;
     trace := trace w; self := s |}.

(** ** The state-and-exception monad *)

Definition M (A : Type) : Type := World -> World * outcome A.

Definition ret {A} (a : A) : M A := fun w => (w, Ret a).

Definition raise {A} (e : exn) : M A := fun w => (w, Raise e).

Definition bind {A B} (m : M A) (k : A -> M B) : M B :=
  fun w =>
    match m w with
    | (w1, Ret a) => k a w1
    | (w1, Raise e) => (w1, Raise e)
    end.

Notation "'do' x <- m ; k" := (bind m (fun x => k))
  (at level 10, x name, m at level 100, k at level 200,
   format "'[v' 'do'  x  <-  m ; '/' k ']'").
Notation "'run' m ; k" := (bind m (fun _ => k))
  (at level 10, m at level 100, k at level 200,
   format "'[v' 'run'  m ; '/' k ']'").

(** [try: body finally: fin].  An exception of [fin] replaces whatever
    [body] produced; otherwise the result or exception of [body] stands. *)
Definition try_finally {A} (body : M A) (fin : M unit) : M A :=
  fun w =>
    let '(w1, r) := body w in
    match fin w1 with
    | (w2, Ret _) => (w2, r)
    | (w2, Raise e) => (w2, Raise e)
    end.

Definition get_world : M World := fun w => (w, Ret w).

Definition update (f : World -> World) : M unit := fun w => (f w, Ret tt).

Definition update_self (f : EspSerial -> EspSerial) : M unit :=
  update (fun w => with_self (f (self w)) w).

(** Record an external call and hand back what it produced. *)
Definition external {X} (c : call) (r : outcome X) : M X :=
  fun w => (with_trace (trace w ++ [Event c (error_of r)]) w, r).

(** An external call that works on the raw connection and may change its
    line settings. *)
Definition on_line {X} (c : call)
    (f : PortSettings -> PortSettings * outcome X) : M X :=
  fun w =>
    let '(s', r) := f (settings (raw w)) in
    external c r
      (with_raw {| is_open := is_open (raw w); settings := s' |} w).

(** ** The collaborators

    esptool and pyserial are not part of this repository.  What they
    return, whether they raise, and what they do to the line settings of
    the connection they are given is described by a [Library]; the
    theorems below hold for every such description.
    [get_default_connected_device] returns a loader or [None];
    [redirect_stdout] only redirects what esptool prints and is left
    out. *)
Record Library : Type := {
  ESPTOOL_CHIPS : list string;
  _ESPTOOL_RAW_VERSION : string;
  get_port_list : list string;
  get_default_connected_device :
    list string -> option string -> Z -> Z -> option string ->
    option ESPLoader;
  serial_for_url : string -> PortSettings -> outcome PortSettings;
  detect_chip : Z -> PortSettings -> PortSettings * outcome ESPLoader;
  connect : ESPLoader -> string -> PortSettings -> PortSettings * outcome unit;
  run_stub : ESPLoader -> PortSettings -> PortSettings * outcome ESPLoader;
  stub_hard_reset : ESPLoader -> PortSettings -> PortSettings * outcome unit;
  apply_settings_error : PortSettings -> PortSettings -> option exn;
  close_error : option exn;
}.

(** Modelled from the spec: the constructor of the base class [Serial]
    (package pytest_embedded_serial, absent from these sources).  Of its
    effects only the two attributes that [EspSerial] reads back are kept:
    the device exposes [port] and the normal session rate [baud]. *)
Definition Serial_init (port : string) (baud : Z) : M unit :=
  update_self (set_port_baud port baud).

(** Modelled from the spec: stopping the background log-forwarding
    session of the base class [Serial] (absent from these sources), which
    releases the port. *)
Definition stop_redirect : M unit :=
  run update (with_redirect false);
  external stop_redirect_call (Ret tt).

(** Modelled from the spec: starting the background log-forwarding
    session of the base class [Serial] again. *)
Definition start_redirect : M unit :=
  run update (with_redirect true);
  external start_redirect_call (Ret tt).

(** Modelled from the spec: the context manager
    [Serial.disable_redirect_serial] (same absent base class).  The
    forwarding session is stopped before the block is entered and is
    started again when the block is left, whether it returned or
    raised. *)
Definition disable_redirect_serial {A} (block : M A) : M A :=
  run stop_redirect;
  try_finally block start_redirect.

(** ** [EspSerial.__init__] *)

(** A new empty dictionary; its reference is the next free index. *)
Definition new_dict : M nat :=
  fun w => (with_heap (heap w ++ [[]]) w, Ret (length (heap w))).

(** The dictionary behind a reference. *)
Definition deref (w : World) (r : nat) : dict := default [] (heap w !! r).

Section init.
Variable lib : Library.

Definition EspSerial_init (target beta_target port : option string)
    (baud esptool_baud : Z) (skip_autoflash erase_all : bool)
    (port_target_cache : option nat) : M unit :=
  do cache <- match port_target_cache with
              | Some r => ret r
              | None => new_dict
              end;
  run update_self (set_cache cache);
  let esptool_target := py_or beta_target target in
  do ports <- match port with
              | None =>
                  do available_ports <-
                    external get_port_list_call (Ret (get_port_list lib));
                  do w <- get_world;
                  let ports :=
                    sorted_ports available_ports (occupied_ports w) in
                  ret (prioritize esptool_target (deref w cache) ports)
              | Some p => ret [p]
              end;
  if negb (py_in esptool_target ("auto" :: ESPTOOL_CHIPS lib))
  then raise (ValueError (NotSupportTarget (_ESPTOOL_RAW_VERSION lib)
                            esptool_target (ESPTOOL_CHIPS lib)))
  else
    do found <-
      external
        (get_default_connected_device_call ports port 3 baud esptool_target)
        (Ret (get_default_connected_device lib ports port 3 baud
                esptool_target));
    match found with
    | None => raise (ValueError CouldntAutoDetect)
    | Some loader =>
        run external loader_port_close_call (Ret tt);
        run update_self (set_esp None);
        run update_self (set_stub None);
        let target := replace_char "-" "" (lower (CHIP_NAME loader)) in
        run update_self
              (set_flags target skip_autoflash erase_all esptool_baud);
        Serial_init (serial_port loader) baud
    end.

(** [self._port_target_cache[self.port] = self.target].  The call to the
    base class hook that follows has no part in this module's state. *)
Definition _post_init : M unit :=
  fun w =>
    let r := _port_target_cache (self w) in
    let d := dict_set (deref w r) (port (self w)) (target (self w)) in
    (with_heap (<[r := d]> (heap w)) w, Ret tt).
End init.

(** ** The [use_esptool] decorator *)

(** A decorated method body.  It may read and change the attributes of
    [self] (the stub loader is [self.stub]) and the line settings of the
    raw connection, and it returns or raises. *)
Definition operation (R : Type) : Type :=
  EspSerial -> PortSettings -> EspSerial * PortSettings * outcome R.

Definition call_func {R} (func : operation R) : M R :=
  fun w =>
    let '(s', l', r) := func (self w) (settings (raw w)) in
    external func_call r
      (with_self s'
         (with_raw {| is_open := is_open (raw w); settings := l' |} w)).

Section use_esptool.
Variable lib : Library.

(** [_s = pyserial.serial_for_url(self.port, **self.port_config)] *)
Definition open_raw : M unit :=
  fun w =>
    let url := port (self w) in
    match serial_for_url lib url (port_config (self w)) with
    | Ret s0 =>
        external (serial_for_url_call url) (Ret tt)
          (with_raw {| is_open := true; settings := s0 |} w)
    | Raise e => external (serial_for_url_call url) (Raise e) w
    end.

(** [settings = _s.get_settings()] *)
Definition get_settings : M PortSettings :=
  fun w => external get_settings_call (Ret (settings (raw w))) w.

(** [self.stub.hard_reset()]; on [None] the attribute lookup raises. *)
Definition call_stub_hard_reset : M unit :=
  fun w =>
    match stub (self w) with
    | None =>
        external (stub_hard_reset_call None)
          (Raise (AttributeError "hard_reset")) w
    | Some st =>
        on_line (stub_hard_reset_call (Some st)) (stub_hard_reset lib st) w
    end.

(** [_s.apply_settings(d)]: the line takes the settings [d], unless
    pyserial raises, in which case it is left as it was. *)
Definition apply_settings (d : PortSettings) : M unit :=
  fun w =>
    match apply_settings_error lib d (settings (raw w)) with
    | None =>
        external (apply_settings_call d) (Ret tt)
          (with_raw {| is_open := is_open (raw w); settings := d |} w)
    | Some e => external (apply_settings_call d) (Raise e) w
    end.

(** [_s.close()] *)
Definition close : M unit :=
  fun w =>
    match close_error lib with
    | None =>
        external close_call (Ret tt)
          (with_raw {| is_open := false; settings := settings (raw w) |} w)
    | Some e => external close_call (Raise e) w
    end.

(** The [try] block of [wrapper]. *)
Definition wrapper_try {R} (func : operation R) : M R :=
  do w <- get_world;
  do loader <- on_line (detect_chip_call (baud (self w)))
                 (detect_chip lib (baud (self w)));
  run update_self (set_esp (Some loader));
  run on_line (connect_call "hard_reset") (connect lib loader "hard_reset");
  do st <- on_line run_stub_call (run_stub lib loader);
  run update_self (set_stub (Some st));
  call_func func.

(** The [finally] block of [wrapper]. *)
Definition wrapper_finally (settings : PortSettings) : M unit :=
  run call_stub_hard_reset;
  run apply_settings settings;
  close.

Definition use_esptool {R} (func : operation R) : M R :=
  disable_redirect_serial
    (run open_raw;
     do settings <- get_settings;
     try_finally (wrapper_try func) (wrapper_finally settings)).

(** [def hard_reset(self): pass] *)
Definition hard_reset_func : operation unit :=
  fun s l => (s, l, Ret tt).

Definition hard_reset : M unit := use_esptool hard_reset_func.

End use_esptool.

(** ** Reading the log *)

(** The events logged between two worlds. *)
Definition new_events (w w' : World) : list event :=
  drop (length (trace w)) (trace w').

Definition is_call (c : call) (ev : event) : bool :=
  match c, ev_call ev with
  | stop_redirect_call, stop_redirect_call => true
  | start_redirect_call, start_redirect_call => true
  | func_call, func_call => true
  | close_call, close_call => true
  | run_stub_call, run_stub_call => true
  | get_settings_call, get_settings_call => true
  | _, _ => false
  end.

Definition is_detection (ev : event) : bool :=
  match ev_call ev with
  | get_default_connected_device_call _ _ _ _ _ => true
  | _ => false
  end.

Definition is_hard_reset (ev : event) : bool :=
  match ev_call ev with
  | stub_hard_reset_call _ => true
  | _ => false
  end.

(** The three steps of the [finally] block. *)
Definition is_cleanup (ev : event) : bool :=
  match ev_call ev with
  | stub_hard_reset_call _ | apply_settings_call _ | close_call => true
  | _ => false
  end.

(** The error of the first cleanup step that failed, if one did. *)
Definition cleanup_failure (evs : list event) : option exn :=
  head (omap ev_error (List.filter is_cleanup evs)).

(** The candidate lists handed to [get_default_connected_device]. *)
Definition detection_lists (evs : list event) : list (list string) :=
  omap (fun ev =>
          match ev_call ev with
          | get_default_connected_device_call ports _ _ _ _ => Some ports
          | _ => None
          end) evs.

(** ** What is read off a run *)

(** The ports that the cache loop moves: the keys, in the order of the
    dictionary, whose cached target is [t] and which are candidates. *)
Definition cache_hits (t : string) (cache : dict) (ports : list string)
    : list string :=
  (List.filter
     (fun it => (String.eqb it.2 t && bool_decide (it.1 ∈ ports))%bool)
     cache).*1.

(** The reference held in [self._port_target_cache], and the heap once it
    is set: the dictionary passed in, or a new empty one. *)
Definition cache_ref (port_target_cache : option nat) (w : World) : nat :=
  match port_target_cache with
  | Some r => r
  | None => length (heap w)
  end.

Definition heap_with_cache (port_target_cache : option nat) (w : World)
    : list dict :=
  match port_target_cache with
  | Some _ => heap w
  | None => heap w ++ [[]]
  end.

Definition cache_dict (port_target_cache : option nat) (w : World) : dict :=
  default []
    (heap_with_cache port_target_cache w !! cache_ref port_target_cache w).

(** The value of [ports] after the [if port is None: ... else: ...]. *)
Definition init_ports (lib : Library) (esptool_target port : option string)
    (cache : dict) (occupied : list string) : list string :=
  match port with
  | None => candidate_ports esptool_target cache (get_port_list lib) occupied
  | Some p => [p]
  end.

(** The calls made while [ports] is computed. *)
Definition listing (port : option string) : list event :=
  match port with
  | None => [Event get_port_list_call None]
  | Some _ => []
  end.

(** The errors logged in a run. *)
Definition failures (evs : list event) : list exn := omap ev_error evs.

(** ** Logs of [use_esptool]

    Every run of the [try] block, of the [finally] block and of the whole
    wrapper leaves one of a few logs; the three relations below list
    them, and the lemmas after them show that the code produces nothing
    else. *)

Section session_logs.
Variable lib : Library.
Context {R : Type} (func : operation R).

(** Logs of the [try] block at baud rate [b], with the outcome of the
    block and the value of [self.stub] when it is left; [old] is
    [self.stub] on entry. *)
Inductive try_log (b : Z) (old : option ESPLoader)
    : list event -> outcome R -> option ESPLoader -> Prop :=
| try_detect_failed e :
    try_log b old [Event (detect_chip_call b) (Some e)] (Raise e) old
| try_connect_failed e :
    try_log b old
      [Event (detect_chip_call b) None;
       Event (connect_call "hard_reset") (Some e)]
      (Raise e) old
| try_run_stub_failed e :
    try_log b old
      [Event (detect_chip_call b) None;
       Event (connect_call "hard_reset") None;
       Event run_stub_call (Some e)]
      (Raise e) old
| try_func_called loader l st s0 l0 s1 l1 r :
    (run_stub lib loader l).2 = Ret st ->
    stub s0 = Some st ->
    func s0 l0 = (s1, l1, r) ->
    try_log b old
      [Event (detect_chip_call b) None;
       Event (connect_call "hard_reset") None;
       Event run_stub_call None;
       Event func_call (error_of r)]
      r (stub s1).

(** Logs of the [finally] block that restores the snapshot [d], entered
    with [self.stub = st]. *)
Inductive finally_log (d : PortSettings) (st : option ESPLoader)
    : list event -> outcome unit -> Prop :=
| finally_reset_failed e :
    finally_log d st [Event (stub_hard_reset_call st) (Some e)] (Raise e)
| finally_apply_failed e :
    is_Some st ->
    finally_log d st
      [Event (stub_hard_reset_call st) None;
       Event (apply_settings_call d) (Some e)]
      (Raise e)
| finally_close_failed e :
    is_Some st ->
    finally_log d st
      [Event (stub_hard_reset_call st) None;
       Event (apply_settings_call d) None;
       Event close_call (Some e)]
      (Raise e)
| finally_done :
    is_Some st ->
    finally_log d st
      [Event (stub_hard_reset_call st) None;
       Event (apply_settings_call d) None;
       Event close_call None]
      (Ret tt).

(** Logs of the whole wrapper on the port [p] opened with [config]. *)
Inductive session_log (p : string) (config : PortSettings) (b : Z)
    (old : option ESPLoader) : list event -> outcome R -> Prop :=
| session_not_opened e :
    serial_for_url lib p config = Raise e ->
    session_log p config b old
      [Event stop_redirect_call None;
       Event (serial_for_url_call p) (Some e);
       Event start_redirect_call None]
      (Raise e)
| session_opened d evs_try r st evs_finally rf :
    serial_for_url lib p config = Ret d ->
    try_log b old evs_try r st ->
    finally_log d st evs_finally rf ->
    session_log p config b old
      ([Event stop_redirect_call None;
        Event (serial_for_url_call p) None;
        Event get_settings_call None]
       ++ evs_try ++ evs_finally ++ [Event start_redirect_call None])
      (match rf with
       | Ret _ => r
       | Raise e => Raise e
       end).

End session_logs.

(** ** A test bench *)

Definition esp32_rom (p : string) : ESPLoader :=
  {| CHIP_NAME := "ESP32"; serial_port := p; IS_STUB := false |}.

Definition esp32_stub (p : string) : ESPLoader :=
  {| CHIP_NAME := "ESP32"; serial_port := p; IS_STUB := true |}.

(** A host with the serial ports [available].  An ESP32 answers on
    [device], when there is one and it is among the candidates; esptool
    leaves the line at the baud rate it was told to use.  [deaf] makes
    [detect_chip] fail during a privileged session. *)
Definition bench (available : list string) (device : option string)
    (deaf : bool) : Library :=
  {| ESPTOOL_CHIPS := ["esp8266"; "esp32"; "esp32s2"];
     _ESPTOOL_RAW_VERSION := "3.1";
     get_port_list := available;
     get_default_connected_device := fun ports _ _ _ _ =>
       match device with
       | Some d => if bool_decide (d ∈ ports) then Some (esp32_rom d) else None
       | None => None
       end;
     serial_for_url := fun _ config => Ret config;
     detect_chip := fun b s =>
       if deaf then ([("baudrate", b)], Raise (FatalError "Failed to connect"))
       else ([("baudrate", b)], Ret (esp32_rom (default "" device)));
     connect := fun _ _ s => (s, Ret tt);
     run_stub := fun l s => (s, Ret (esp32_stub (serial_port l)));
     stub_hard_reset := fun _ s => (s, Ret tt);
     apply_settings_error := fun _ _ => None;
     close_error := None |}.

Definition blank : EspSerial :=
  {| _port_target_cache := 0; esp := None; stub := None; target := "";
     skip_autoflash := false; erase_all := false; esptool_baud := 921600;
     port := ""; baud := 115200; port_config := [("baudrate", 9600)] |}.

(** A process with the dictionaries [h] and the claimed ports
    [occupied], before any device is constructed. *)
Definition process (h : list dict) (occupied : list string) : World :=
  {| heap := h; occupied_ports := occupied; redirect_running := false;
     raw := {| is_open := false; settings := [] |}; trace := [];
     self := blank |}.

(** A constructed device on port [p] whose forwarding session runs;
    [st] is what an earlier privileged session left in [self.stub]. *)
Definition attached (p : string) (st : option ESPLoader) : World :=
  with_redirect true
    (with_self (set_stub st (set_port_baud p 115200 blank)) (process [] [p])).

(** An operation that fails. *)
Definition failing_func : operation unit :=
  fun s l => (s, l, Raise (FatalError "flash failed")).


(** ** Further readings of the model *)

(** [esp.CHIP_NAME.lower().replace('-', '')], the value of [self.target]. *)
Definition normalize_target (chip_name : string) : string :=
  replace_char "-" "" (lower chip_name).

(** An ASCII capital letter. *)
Definition is_upper (c : ascii) : bool :=
  let n := nat_of_ascii c in ((65 <=? n)%nat && (n <=? 90)%nat)%bool.

(** A character a normalized target may hold. *)
Definition is_target_char (c : ascii) : bool :=
  negb (is_upper c) && negb (Ascii.eqb c "-").

(** The three calls of the [try] block that come before the decorated
    body: [detect_chip], [connect] and [run_stub]. *)
Definition is_handshake (ev : event) : bool :=
  match ev_call ev with
  | detect_chip_call _ | connect_call _ | run_stub_call => true
  | _ => false
  end.

(** The error of the handshake step that failed, if one did. *)
Definition handshake_failure (evs : list event) : option exn :=
  head (omap ev_error (List.filter is_handshake evs)).

(** The text is ASCII: every byte is below 128.  On such text [lower] is
    Python's [str.lower()], which there changes the letters A to Z only. *)
Definition is_ascii (s : string) : bool :=
  forallb (fun c => (nat_of_ascii c <? 128)%nat) (list_ascii_of_string s).

(** [EspSerial.__init__] with the constructor of the base class left
    open: [super_init port baud] stands for the call
    [super().__init__(msg_queue, esp.serial_port, baud, **kwargs)] that
    ends [__init__], whatever [Serial.__init__] then does. *)
Definition EspSerial_init_with (lib : Library)
    (super_init : string -> Z -> M unit)
    (target beta_target port : option string)
    (baud esptool_baud : Z) (skip_autoflash erase_all : bool)
    (port_target_cache : option nat) : M unit :=
  do cache <- match port_target_cache with
              | Some r => ret r
              | None => new_dict
              end;
  run update_self (set_cache cache);
  let esptool_target := py_or beta_target target in
  do ports <- match port with
              | None =>
                  do available_ports <-
                    external get_port_list_call (Ret (get_port_list lib));
                  do w <- get_world;
                  let ports :=
                    sorted_ports available_ports (occupied_ports w) in
                  ret (prioritize esptool_target (deref w cache) ports)
              | Some p => ret [p]
              end;
  if negb (py_in esptool_target ("auto" :: ESPTOOL_CHIPS lib))
  then raise (ValueError (NotSupportTarget (_ESPTOOL_RAW_VERSION lib)
                            esptool_target (ESPTOOL_CHIPS lib)))
  else
    do found <-
      external
        (get_default_connected_device_call ports port 3 baud esptool_target)
        (Ret (get_default_connected_device lib ports port 3 baud
                esptool_target));
    match found with
    | None => raise (ValueError CouldntAutoDetect)
    | Some loader =>
        run external loader_port_close_call (Ret tt);
        run update_self (set_esp None);
        run update_self (set_stub None);
        let target := replace_char "-" "" (lower (CHIP_NAME loader)) in
        run update_self
              (set_flags target skip_autoflash erase_all esptool_baud);
        super_init (serial_port loader) baud
    end.

(** * Properties *)

(** ** The model at work *)

Example ex_sorted_ports :
  sorted_ports ["/dev/ttyUSB1"; "/dev/ttyUSB0"; "/dev/ttyS0"] ["/dev/ttyUSB1"]
  = ["/dev/ttyS0"; "/dev/ttyUSB0"].
Proof. vm_compute. reflexivity. Qed.

Example ex_prioritize :
  prioritize (Some "esp32") [("/dev/ttyUSB0", "esp32")]
    ["/dev/ttyS0"; "/dev/ttyUSB0"]
  = ["/dev/ttyS0"; "/dev/ttyUSB0"].
Proof. vm_compute. reflexivity. Qed.

Example ex_lower : replace_char "-" "" (lower "ESP32-S2") = "esp32s2"%string.
Proof. vm_compute. reflexivity. Qed.


(** ** Sorting *)

Section list_sort_facts.
Context {A K : Type} (lt : K -> K -> bool) (key : A -> K).

Lemma sort_insert_perm x l : sort_insert lt key x l ≡ₚ x :: l.
Proof.
  induction l as [|y l IH]; simpl; [done|].
  destruct (lt (key y) (key x)); [|done].
  rewrite IH. apply perm_swap.
Qed.

Lemma list_sort_perm l : list_sort lt key l ≡ₚ l.
Proof.
  induction l as [|x l IH]; simpl; [done|].
  rewrite sort_insert_perm. by rewrite IH.
Qed.

(** Insertion walks past a prefix of smaller keys. *)
Lemma sort_insert_app x l1 l2 :
  Forall (fun y => lt (key y) (key x) = true) l1 ->
  sort_insert lt key x (l1 ++ l2) = l1 ++ sort_insert lt key x l2.
Proof.
  induction 1 as [|y l1 Hy _ IH]; simpl; [done|].
  by rewrite Hy, IH.
Qed.

(** Insertion stops in front of a list whose head is not smaller. *)
Lemma sort_insert_head x l :
  Forall (fun y => lt (key y) (key x) = false) l ->
  sort_insert lt key x l = x :: l.
Proof. destruct 1 as [|y l Hy _]; simpl; [done|]. by rewrite Hy. Qed.
End list_sort_facts.

(** A stable sort on a boolean key is a stable partition: the elements
    with key [False] first, those with key [True] last. *)
Lemma list_sort_bool {A} (key : A -> bool) (l : list A) :
  list_sort bool_lt key l
  = List.filter (fun x => negb (key x)) l ++ List.filter key l.
Proof.
  induction l as [|x l IH]; simpl; [done|].
  fold (list_sort bool_lt key l). rewrite IH.
  destruct (key x) eqn:Hx; simpl.
  - rewrite sort_insert_app.
    + f_equal. apply sort_insert_head.
      apply Forall_forall. intros y Hy%list_elem_of_In%filter_In.
      destruct Hy as [_ Hy]. unfold bool_lt. by rewrite Hx, Hy.
    + apply Forall_forall. intros y Hy%list_elem_of_In%filter_In.
      destruct Hy as [_ Hy]. unfold bool_lt. rewrite Hx.
      by destruct (key y).
  - apply sort_insert_head. apply Forall_forall. intros y _.
    unfold bool_lt. rewrite Hx. by destruct (key y).
Qed.

Lemma filter_eqb_absent (p : string) (l : list string) :
  p ∉ l -> List.filter (fun x => String.eqb x p) l = [].
Proof.
  induction l as [|y l IH]; simpl; [done|]. intros Hp.
  destruct (String.eqb_spec y p) as [->|_].
  - exfalso. apply Hp. left.
  - apply IH. intros H. apply Hp. by right.
Qed.

Lemma filter_eqb_NoDup (p : string) (l : list string) :
  NoDup l -> p ∈ l -> List.filter (fun x => String.eqb x p) l = [p].
Proof.
  induction 1 as [|x l Hx Hl IH]; intros Hp; [by apply elem_of_nil in Hp|].
  simpl. destruct (String.eqb_spec x p) as [->|Hne].
  - f_equal. by apply filter_eqb_absent.
  - apply IH. by apply elem_of_cons in Hp as [->|Hp].
Qed.

(** [ports.sort(key=lambda x: x == _port)] moves [_port] to the back and
    keeps the order of the others. *)
Lemma sort_by_is_port (p : string) (l : list string) :
  NoDup l -> p ∈ l ->
  list_sort bool_lt (fun x => String.eqb x p) l
  = List.filter (fun x => negb (String.eqb x p)) l ++ [p].
Proof. intros Hl Hp. by rewrite list_sort_bool, filter_eqb_NoDup. Qed.

(** [ports.sort()] gives an ascending list. *)
Lemma sort_insert_sorted (x : string) (l : list string) :
  Sorted String.le l -> Sorted String.le (sort_insert String.ltb id x l).
Proof.
  assert (Hflip : forall a b, String.ltb a b = false -> String.le b a).
  { intros a b. unfold String.le, String.ltb, String.leb.
    rewrite (String.compare_antisym a b).
    destruct (String.compare b a); simpl; done. }
  assert (Hlt : forall a b, String.ltb a b = true -> String.le a b).
  { intros a b. unfold String.le, String.ltb, String.leb.
    destruct (String.compare a b); simpl; done. }
  induction 1 as [|y l Hl IH Hy]; simpl.
  - repeat constructor.
  - unfold id in *. destruct (String.ltb y x) eqn:Hyx.
    + constructor; [done|].
      destruct Hy as [|z l Hz]; simpl.
      * constructor. by apply Hlt.
      * destruct (String.ltb z x); constructor; [done | by apply Hlt].
    + constructor; [by constructor|]. constructor. by apply Hflip.
Qed.

Lemma list_sort_sorted (l : list string) :
  StronglySorted String.le (list_sort String.ltb id l).
Proof.
  apply Sorted_StronglySorted; [apply _|].
  induction l as [|x l IH]; simpl; [constructor|].
  by apply sort_insert_sorted.
Qed.

(** ** The candidate list *)

Lemma sorted_ports_elem (available occupied : list string) (p : string) :
  p ∈ sorted_ports available occupied <-> p ∈ available /\ p ∉ occupied.
Proof.
  unfold sorted_ports, free_ports. rewrite list_sort_perm.
  rewrite elem_of_elements, elem_of_difference.
  by rewrite !elem_of_list_to_set.
Qed.

Lemma sorted_ports_NoDup (available occupied : list string) :
  NoDup (sorted_ports available occupied).
Proof.
  unfold sorted_ports. rewrite list_sort_perm. apply NoDup_elements.
Qed.

Lemma sorted_ports_ascending (available occupied : list string) :
  StronglySorted String.le (sorted_ports available occupied).
Proof. apply list_sort_sorted. Qed.

Lemma cache_hits_perm t cache l l' :
  l ≡ₚ l' -> cache_hits t cache l = cache_hits t cache l'.
Proof.
  intros Hl. unfold cache_hits. f_equal. apply filter_ext. intros [p t'].
  simpl. f_equal. apply bool_decide_ext. by rewrite Hl.
Qed.

Lemma cache_hits_keys t cache l p :
  p ∈ cache_hits t cache l -> p ∈ dict_keys cache.
Proof.
  unfold cache_hits, dict_keys. rewrite !list_elem_of_fmap.
  intros (it & -> & Hit%list_elem_of_In%filter_In). exists it.
  split; [done|]. apply list_elem_of_In. tauto.
Qed.

Lemma prioritize_step_perm t l it : prioritize_step t l it ≡ₚ l.
Proof.
  destruct it as [p t']. unfold prioritize_step.
  case_match; [apply list_sort_perm | done].
Qed.

Lemma prioritize_perm t cache l : prioritize t cache l ≡ₚ l.
Proof.
  unfold prioritize. destruct (truthy t); [|done].
  revert l. induction cache as [|it cache IH]; intros l; simpl; [done|].
  rewrite IH. apply prioritize_step_perm.
Qed.

Lemma filter_filter {A} (f g : A -> bool) (l : list A) :
  List.filter f (List.filter g l) = List.filter (fun x => g x && f x)%bool l.
Proof.
  induction l as [|x l IH]; simpl; [done|].
  destruct (g x); simpl; [destruct (f x)|]; by rewrite IH.
Qed.

(** The cache loop as a whole: the hits go to the back, in the order of
    the dictionary, and the other candidates keep their order. *)
Lemma prioritize_fold (t : string) (cache : dict) (l : list string) :
  NoDup l -> dict_wf cache ->
  foldl (prioritize_step (Some t)) l cache
  = List.filter (fun p => negb (bool_decide (p ∈ cache_hits t cache l))) l
    ++ cache_hits t cache l.
Proof.
  unfold dict_wf, dict_keys. intros Hl Hc. revert l Hl.
  induction cache as [|[p t'] cache IH]; intros l Hl.
  { simpl. rewrite app_nil_r. symmetry. apply forallb_filter_id.
    by apply forallb_forall. }
  rewrite fmap_cons in Hc. apply NoDup_cons in Hc as [Hp Hc].
  specialize (IH Hc). unfold cache_hits. simpl.
  fold (cache_hits t cache l).
  destruct (String.eqb_spec t' t) as [->|Hne]; simpl.
  - rewrite (bool_decide_true (Some t = Some t)) by done. simpl.
    destruct (bool_decide (p ∈ l)) eqn:Hpl; simpl.
    + apply bool_decide_eq_true in Hpl.
      rewrite sort_by_is_port by done.
      assert (Hperm : List.filter (fun x => negb (String.eqb x p)) l ++ [p]
                      ≡ₚ l).
      { rewrite <- (sort_by_is_port p l) by done. apply list_sort_perm. }
      rewrite IH by (by rewrite Hperm).
      rewrite (cache_hits_perm t cache _ l Hperm).
      assert (Hnot : p ∉ cache_hits t cache l).
      { intros H. by apply Hp, (cache_hits_keys t cache l). }
      rewrite List.filter_app. simpl.
      rewrite (bool_decide_false _ Hnot). simpl.
      rewrite <- app_assoc. simpl. f_equal.
      rewrite filter_filter. apply filter_ext. intros x.
      destruct (String.eqb_spec x p) as [->|Hx]; simpl.
      * rewrite bool_decide_true; [done | left].
      * apply (f_equal negb), bool_decide_ext.
        rewrite elem_of_cons. split; [by right | by intros [?|?]].
    + by apply IH.
  - rewrite (bool_decide_false (Some t' = Some t)) by congruence. simpl.
    by apply IH.
Qed.

(** ** Runs of [__init__] *)

Section init_facts.
Variable lib : Library.
Variables (a_target a_beta_target a_port : option string).
Variables (a_baud a_esptool_baud : Z) (a_skip_autoflash a_erase_all : bool).
Variable a_cache : option nat.
Variable w : World.

Local Abbreviation esptool_target := (py_or a_beta_target a_target).
Local Abbreviation ports :=
  (init_ports lib esptool_target a_port (cache_dict a_cache w)
     (occupied_ports w)).
Local Abbreviation detection :=
  (Event (get_default_connected_device_call ports a_port 3 a_baud
            esptool_target) None).
Local Abbreviation init_run :=
  (EspSerial_init lib a_target a_beta_target a_port a_baud a_esptool_baud
     a_skip_autoflash a_erase_all a_cache w).
Local Abbreviation supported :=
  (py_in esptool_target ("auto" :: ESPTOOL_CHIPS lib)).
Local Abbreviation found :=
  (get_default_connected_device lib ports a_port 3 a_baud esptool_target).

Ltac init_cases :=
  unfold EspSerial_init, init_ports, listing, cache_dict, heap_with_cache,
    cache_ref, candidate_ports, sorted_ports, deref, bind, new_dict, ret,
    raise, external, update_self, update, get_world, Serial_init;
  destruct a_cache, a_port; simpl;
  repeat (case_match; simpl in *; simplify_eq; try done).

(** [__init__] only allocates: the dictionaries are as before, plus an
    empty one when no cache was passed in. *)
Lemma init_heap : heap init_run.1 = heap_with_cache a_cache w.
Proof. init_cases. Qed.

Lemma init_result :
  init_run.2
  = if supported
    then match found with
         | Some _ => Ret tt
         | None => Raise (ValueError CouldntAutoDetect)
         end
    else Raise (ValueError (NotSupportTarget (_ESPTOOL_RAW_VERSION lib)
                              esptool_target (ESPTOOL_CHIPS lib))).
Proof. init_cases. Qed.

Lemma init_trace :
  trace init_run.1
  = trace w ++ listing a_port
    ++ (if supported
        then detection
             :: match found with
                | Some _ => [Event loader_port_close_call None]
                | None => []
                end
        else []).
Proof. init_cases; by rewrite <- ?app_assoc, ?app_nil_r. Qed.

Lemma init_new_events :
  new_events w init_run.1
  = listing a_port
    ++ (if supported
        then detection
             :: match found with
                | Some _ => [Event loader_port_close_call None]
                | None => []
                end
        else []).
Proof. unfold new_events. by rewrite init_trace, drop_app_length. Qed.

(** The attributes after a successful construction. *)
Lemma init_self loader :
  supported = true -> found = Some loader ->
  _port_target_cache (self init_run.1) = cache_ref a_cache w
  /\ port (self init_run.1) = serial_port loader
  /\ target (self init_run.1)
     = replace_char "-" "" (lower (CHIP_NAME loader))
  /\ esp (self init_run.1) = None
  /\ stub (self init_run.1) = None.
Proof.
  init_cases; intros Hs Hf; rewrite ?Hs in *; simplify_eq; try done;
    congruence.
Qed.
End init_facts.

(** ** The port-target dictionary *)

Lemma dict_get_set_same (d : dict) (k v : string) :
  dict_get (dict_set d k v) k = Some v.
Proof.
  induction d as [|[k' v'] d IH]; simpl.
  - by rewrite String.eqb_refl.
  - destruct (String.eqb k' k) eqn:Hk; simpl; by rewrite Hk.
Qed.

Lemma dict_get_set_other (d : dict) (k v q : string) :
  q <> k -> dict_get (dict_set d k v) q = dict_get d q.
Proof.
  intros Hq. induction d as [|[k' v'] d IH]; simpl.
  - destruct (String.eqb_spec k q); [congruence | done].
  - destruct (String.eqb_spec k' k) as [->|Hk]; simpl.
    + destruct (String.eqb_spec k q); [congruence | done].
    + by rewrite IH.
Qed.

Lemma dict_set_keys (d : dict) (k v : string) :
  dict_keys (dict_set d k v)
  = if bool_decide (k ∈ dict_keys d) then dict_keys d else dict_keys d ++ [k].
Proof.
  unfold dict_keys. induction d as [|[k' v'] d IH]; [done|].
  cbn [dict_set]. destruct (String.eqb_spec k' k) as [->|Hk];
    rewrite !fmap_cons; cbn [fst].
  - rewrite bool_decide_true; [done | left].
  - rewrite IH. destruct (bool_decide (k ∈ d.*1)) eqn:Hd.
    + apply bool_decide_eq_true in Hd.
      rewrite bool_decide_true; [done | by right].
    + apply bool_decide_eq_false in Hd.
      rewrite bool_decide_false; [done|].
      rewrite elem_of_cons. intros [?|?]; congruence.
Qed.

(** Assignment keeps one entry per key. *)
Lemma dict_set_wf (d : dict) (k v : string) :
  dict_wf d -> dict_wf (dict_set d k v).
Proof.
  unfold dict_wf. intros Hd. rewrite dict_set_keys. case_bool_decide as Hk.
  - done.
  - apply NoDup_app. repeat split; [done | | apply NoDup_singleton].
    intros x Hx ->%list_elem_of_singleton. done.
Qed.

(** Closed decidable goals are settled by evaluation. *)
Ltac by_compute := apply (bool_decide_unpack _); vm_compute; exact I.

(** ** Claims about [__init__] *)

(** C1, as the claim states it, at its own scenario: with the cache
    [{"/dev/ttyUSB0": "esp32"}], the candidates [/dev/ttyS0] and
    [/dev/ttyUSB0] and the target [esp32], the list handed to
    [get_default_connected_device] is not
    [["/dev/ttyUSB0"; "/dev/ttyS0"]]: the cache hit is at the back. *)
Lemma cache_hit_not_at_front :
  let w := process [[("/dev/ttyUSB0", "esp32")]] [] in
  let lib := bench ["/dev/ttyS0"; "/dev/ttyUSB0"] (Some "/dev/ttyUSB0") false in
  detection_lists
    (new_events w
       (EspSerial_init lib (Some "esp32") None None 115200 921600 false false
          (Some 0%nat) w).1)
  <> [["/dev/ttyUSB0"; "/dev/ttyS0"]].
Proof. vm_compute. discriminate. Qed.

(** C1 (amended): when no port is given and the expected target [t] is
    not empty, every candidate port whose cached target is exactly [t] is
    moved to the back of the list handed to detection, in the order of the
    cache, and the other candidates keep their ascending order in front
    of them.  (The source notes that esptool walks the list in reverse.) *)
Theorem cache_hits_moved_to_back (lib : Library)
    (target beta_target : option string) (baud esptool_baud : Z)
    (skip_autoflash erase_all : bool) (port_target_cache : option nat)
    (w : World) (t : string) :
  py_or beta_target target = Some t ->
  t <> "" ->
  dict_wf (cache_dict port_target_cache w) ->
  let sorted := sorted_ports (get_port_list lib) (occupied_ports w) in
  let hits := cache_hits t (cache_dict port_target_cache w) sorted in
  let order :=
    List.filter (fun p => negb (bool_decide (p ∈ hits))) sorted ++ hits in
  init_ports lib (Some t) None (cache_dict port_target_cache w)
    (occupied_ports w) = order
  /\ (py_in (Some t) ("auto" :: ESPTOOL_CHIPS lib) = true ->
      detection_lists
        (new_events w
           (EspSerial_init lib target beta_target None baud esptool_baud
              skip_autoflash erase_all port_target_cache w).1)
      = [order]).
Proof.
  intros Ht Hne Hwf sorted hits order.
  assert (Hports : init_ports lib (Some t) None
                     (cache_dict port_target_cache w) (occupied_ports w)
                   = order).
  { unfold init_ports, candidate_ports, prioritize, truthy.
    destruct (String.eqb_spec t "") as [|_]; [done|]. simpl.
    apply prioritize_fold; [apply sorted_ports_NoDup | done]. }
  split; [done|]. intros Hs.
  rewrite init_new_events, Ht, Hs, Hports. simpl.
  by destruct (get_default_connected_device _ _ _ _ _ _).
Qed.

Lemma cache_hits_moved_to_back_witness :
  let w := process [[("/dev/ttyUSB0", "esp32")]] [] in
  let lib := bench ["/dev/ttyS0"; "/dev/ttyUSB0"] (Some "/dev/ttyUSB0") false in
  detection_lists
    (new_events w
       (EspSerial_init lib (Some "esp32") None None 115200 921600 false false
          (Some 0%nat) w).1)
  = [["/dev/ttyS0"; "/dev/ttyUSB0"]].
Proof.
  intros w lib.
  refine (proj2 (cache_hits_moved_to_back lib (Some "esp32") None 115200
                   921600 false false (Some 0%nat) w "esp32" _ _ _) _).
  - reflexivity.
  - discriminate.
  - unfold dict_wf, dict_keys. by_compute.
  - reflexivity.
Defined.

(** C3, the code at an absent target: with neither [target] nor
    [beta_target] the membership test [None not in ['auto', ...]] holds, so
    [__init__] raises the unsupported-target [ValueError] for [None], on
    every host and whatever the other arguments are. *)
Theorem absent_target_is_rejected (lib : Library) (port : option string)
    (baud esptool_baud : Z) (skip_autoflash erase_all : bool)
    (port_target_cache : option nat) (w : World) :
  (EspSerial_init lib None None port baud esptool_baud skip_autoflash
     erase_all port_target_cache w).2
  = Raise (ValueError (NotSupportTarget (_ESPTOOL_RAW_VERSION lib) None
                         (ESPTOOL_CHIPS lib))).
Proof. by rewrite init_result. Qed.

(** Without a cache hit the loop leaves the sorted list as it is. *)
Lemma prioritize_no_hits (t : string) (cache : dict) (l : list string) :
  cache_hits t cache l = [] ->
  foldl (prioritize_step (Some t)) l cache = l.
Proof.
  unfold cache_hits. induction cache as [|[p t'] cache IH]; simpl; [done|].
  destruct (String.eqb_spec t' t) as [->|Hne]; simpl.
  - rewrite (bool_decide_true (Some t = Some t)) by done. simpl.
    destruct (bool_decide (p ∈ l)); simpl; [done | apply IH].
  - rewrite (bool_decide_false (Some t' = Some t)) by congruence. apply IH.
Qed.

(** C5, as the claim states it, fails when the cache reorders the
    candidates: with the cache [{"/dev/ttyS0": "esp32"}] and the target
    [esp32], the list handed to detection is not the ascending sort of the
    free ports. *)
Lemma candidates_not_always_ascending :
  let w := process [[("/dev/ttyS0", "esp32")]] [] in
  let lib := bench ["/dev/ttyUSB0"; "/dev/ttyS0"] (Some "/dev/ttyUSB0") false in
  detection_lists
    (new_events w
       (EspSerial_init lib (Some "esp32") None None 115200 921600 false false
          (Some 0%nat) w).1)
  <> [sorted_ports (get_port_list lib) (occupied_ports w)].
Proof. vm_compute. discriminate. Qed.

(** C5 (amended): when no port is given, the list handed to detection is
    the computed candidate list, which is a rearrangement of the ascending
    sort of the available ports that are not occupied, and is that sort
    itself when the expected target is absent or empty or no cache entry
    for it names a candidate.  So no candidate is occupied, and neither is
    the chosen port when the library picks it among the candidates.  For
    the ports [/dev/ttyUSB1], [/dev/ttyUSB0], [/dev/ttyS0] with
    [/dev/ttyUSB1] occupied and no expected target the computed list is
    [/dev/ttyS0], [/dev/ttyUSB0]. *)
Theorem candidates_are_free_ports (lib : Library)
    (target beta_target : option string) (baud esptool_baud : Z)
    (skip_autoflash erase_all : bool) (port_target_cache : option nat)
    (w : World) :
  let t := py_or beta_target target in
  let cache := cache_dict port_target_cache w in
  let sorted := sorted_ports (get_port_list lib) (occupied_ports w) in
  let ports := init_ports lib t None cache (occupied_ports w) in
  let w' := (EspSerial_init lib target beta_target None baud esptool_baud
               skip_autoflash erase_all port_target_cache w).1 in
  (forall l, l ∈ detection_lists (new_events w w') -> l = ports)
  /\ ports ≡ₚ sorted
  /\ StronglySorted String.le sorted
  /\ NoDup sorted
  /\ (forall p, p ∈ sorted <-> p ∈ get_port_list lib /\ p ∉ occupied_ports w)
  /\ (truthy t = false -> ports = sorted)
  /\ (forall s, t = Some s -> cache_hits s cache sorted = [] -> ports = sorted)
  /\ (forall p, p ∈ ports -> p ∉ occupied_ports w)
  /\ (forall loader,
        py_in t ("auto" :: ESPTOOL_CHIPS lib) = true ->
        get_default_connected_device lib ports None 3 baud t = Some loader ->
        serial_port loader ∈ ports ->
        port (self w') ∉ occupied_ports w)
  /\ (forall d,
        candidate_ports None d
          ["/dev/ttyUSB1"; "/dev/ttyUSB0"; "/dev/ttyS0"] ["/dev/ttyUSB1"]
        = ["/dev/ttyS0"; "/dev/ttyUSB0"]).
Proof.
  intros t cache sorted ports w'.
  assert (Hperm : ports ≡ₚ sorted) by apply prioritize_perm.
  assert (Hfree : forall p, p ∈ ports -> p ∉ occupied_ports w).
  { intros p. rewrite Hperm. unfold sorted. rewrite sorted_ports_elem. tauto. }
  split_and!.
  - intros l. subst w'. rewrite init_new_events. simpl.
    destruct (py_in _ _); simpl; [|by intros ?%elem_of_nil].
    destruct (get_default_connected_device _ _ _ _ _ _); simpl;
      by intros ->%list_elem_of_singleton.
  - done.
  - apply sorted_ports_ascending.
  - apply sorted_ports_NoDup.
  - intros p. apply sorted_ports_elem.
  - intros Hf. subst ports. unfold init_ports, candidate_ports, prioritize.
    by rewrite Hf.
  - intros s Hs Hh. subst ports. unfold init_ports, candidate_ports, prioritize.
    rewrite Hs. destruct (truthy (Some s)); [|done].
    by apply prioritize_no_hits.
  - done.
  - intros loader Hs Hf Hin. subst w'.
    destruct (init_self lib target beta_target None baud esptool_baud
                skip_autoflash erase_all port_target_cache w loader Hs Hf)
      as (_ & -> & _).
    by apply Hfree.
  - intros d. vm_compute. reflexivity.
Qed.

Lemma candidates_are_free_ports_witness :
  let w := process [] ["/dev/ttyUSB1"] in
  let lib :=
    bench ["/dev/ttyUSB1"; "/dev/ttyUSB0"; "/dev/ttyS0"]
      (Some "/dev/ttyUSB0") false in
  port
    (self
       (EspSerial_init lib (Some "auto") None None 115200 921600 false false
          None w).1)
  ∉ occupied_ports w.
Proof.
  intros w lib.
  refine (proj1 (proj2 (proj2 (proj2 (proj2 (proj2 (proj2 (proj2 (proj2
            (candidates_are_free_ports lib (Some "auto") None 115200 921600
               false false None w)))))))))
            (esp32_rom "/dev/ttyUSB0") _ _ _).
  - reflexivity.
  - vm_compute. reflexivity.
  - by_compute.
Defined.

(** C6: for every expected target [t] that is neither ["auto"] nor in the
    supported-target list, [__init__] raises the unsupported-target
    [ValueError] naming [t] and the list, and no call to
    [get_default_connected_device] has been made. *)
Theorem unsupported_target_precedes_detection (lib : Library)
    (target beta_target port : option string) (baud esptool_baud : Z)
    (skip_autoflash erase_all : bool) (port_target_cache : option nat)
    (w : World) (t : string) :
  py_or beta_target target = Some t ->
  t <> "auto" ->
  t ∉ ESPTOOL_CHIPS lib ->
  let run_init :=
    EspSerial_init lib target beta_target port baud esptool_baud
      skip_autoflash erase_all port_target_cache w in
  run_init.2
  = Raise (ValueError (NotSupportTarget (_ESPTOOL_RAW_VERSION lib) (Some t)
                         (ESPTOOL_CHIPS lib)))
  /\ List.filter is_detection (new_events w run_init.1) = []
  /\ detection_lists (new_events w run_init.1) = [].
Proof.
  intros Ht Hauto Hchips run_init.
  assert (Hs : py_in (Some t) ("auto" :: ESPTOOL_CHIPS lib) = false).
  { simpl. destruct (String.eqb_spec t "auto") as [|_]; [done|]. simpl.
    apply not_true_is_false. intros (c & Hc & ->%String.eqb_eq)%existsb_exists.
    by apply Hchips, list_elem_of_In. }
  subst run_init. rewrite init_result, init_new_events, Ht, Hs.
  by destruct port.
Qed.

Lemma unsupported_target_precedes_detection_witness :
  let w := process [] [] in
  let lib := bench ["/dev/ttyUSB0"] (Some "/dev/ttyUSB0") false in
  (EspSerial_init lib (Some "esp33") None None 115200 921600 false false
     None w).2
  = Raise (ValueError (NotSupportTarget "3.1" (Some "esp33")
                         ["esp8266"; "esp32"; "esp32s2"])).
Proof.
  intros w lib.
  refine (proj1 (unsupported_target_precedes_detection lib (Some "esp33") None
                   None 115200 921600 false false None w "esp33" _ _ _)).
  - reflexivity.
  - discriminate.
  - by_compute.
Defined.

(** C8: when the target passes validation and
    [get_default_connected_device] returns no device, [__init__] raises
    the could-not-detect [ValueError]; detection has been called exactly
    once, with [connect_attempts=3], on the computed candidates. *)
Theorem no_device_is_fatal (lib : Library)
    (target beta_target port : option string) (baud esptool_baud : Z)
    (skip_autoflash erase_all : bool) (port_target_cache : option nat)
    (w : World) :
  let t := py_or beta_target target in
  let ports :=
    init_ports lib t port (cache_dict port_target_cache w) (occupied_ports w) in
  let run_init :=
    EspSerial_init lib target beta_target port baud esptool_baud
      skip_autoflash erase_all port_target_cache w in
  py_in t ("auto" :: ESPTOOL_CHIPS lib) = true ->
  get_default_connected_device lib ports port 3 baud t = None ->
  run_init.2 = Raise (ValueError CouldntAutoDetect)
  /\ List.filter is_detection (new_events w run_init.1)
     = [Event (get_default_connected_device_call ports port 3 baud t) None].
Proof.
  intros t ports run_init Hs Hf. subst run_init.
  rewrite init_result, init_new_events. fold t. fold ports.
  rewrite Hs, Hf. by destruct port.
Qed.

Lemma no_device_is_fatal_witness :
  let w := process [] [] in
  let lib := bench ["/dev/ttyS0"; "/dev/ttyUSB0"] None false in
  (EspSerial_init lib (Some "esp32") None None 115200 921600 false false
     None w).2
  = Raise (ValueError CouldntAutoDetect).
Proof.
  intros w lib.
  refine (proj1 (no_device_is_fatal lib (Some "esp32") None None 115200
                   921600 false false None w _ _)).
  - reflexivity.
  - reflexivity.
Defined.

(** C7: [__init__] never writes to a dictionary, so whatever its outcome,
    and in particular when it raises, every dictionary alive before the
    call is unchanged; after a successful [__init__] the hook
    [_post_init] assigns the normalized chip name to the resolved port in
    the cache the device holds (the one passed in, when one was), which
    replaces an earlier entry for that port, leaves every other port's
    entry and every other dictionary alone, and keeps one entry per
    port. *)
Theorem cache_written_only_by_post_init (lib : Library)
    (target beta_target port : option string) (baud esptool_baud : Z)
    (skip_autoflash erase_all : bool) (port_target_cache : option nat)
    (w : World) :
  let t := py_or beta_target target in
  let ports :=
    init_ports lib t port (cache_dict port_target_cache w) (occupied_ports w) in
  let run_init :=
    EspSerial_init lib target beta_target port baud esptool_baud
      skip_autoflash erase_all port_target_cache w in
  let r := cache_ref port_target_cache w in
  let before := cache_dict port_target_cache w in
  (forall r' d, heap w !! r' = Some d -> heap run_init.1 !! r' = Some d)
  /\ (forall e, run_init.2 = Raise e ->
      forall r', port_target_cache = Some r' ->
                 heap run_init.1 !! r' = heap w !! r')
  /\ (forall loader,
        (forall r', port_target_cache = Some r' -> (r' < length (heap w))%nat) ->
        py_in t ("auto" :: ESPTOOL_CHIPS lib) = true ->
        get_default_connected_device lib ports port 3 baud t = Some loader ->
        let p := serial_port loader in
        let chip := replace_char "-" "" (lower (CHIP_NAME loader)) in
        let w2 := (_post_init run_init.1).1 in
        run_init.2 = Ret tt
        /\ heap w2 !! r = Some (dict_set before p chip)
        /\ dict_get (deref w2 r) p = Some chip
        /\ (forall q, q <> p -> dict_get (deref w2 r) q = dict_get before q)
        /\ (dict_wf before -> dict_wf (deref w2 r))
        /\ (forall r', r' <> r -> heap w2 !! r' = heap run_init.1 !! r')).
Proof.
  intros t ports run_init r before. subst run_init.
  assert (Hkeep : forall r' d, heap w !! r' = Some d ->
                    heap_with_cache port_target_cache w !! r' = Some d).
  { intros r' d Hd. unfold heap_with_cache.
    destruct port_target_cache; [done | by apply lookup_app_l_Some]. }
  split_and!.
  - intros r' d Hd. rewrite init_heap. by apply Hkeep.
  - intros e _ r' ->. by rewrite init_heap.
  - intros loader Hlive Hs Hf p chip w2.
    destruct (init_self lib target beta_target port baud esptool_baud
                skip_autoflash erase_all port_target_cache w loader Hs Hf)
      as (Hr & Hp & Ht & _).
    assert (Hlen : (r < length (heap_with_cache port_target_cache w))%nat).
    { subst r. unfold cache_ref, heap_with_cache.
      destruct port_target_cache as [r'|]; [by apply Hlive|].
      rewrite length_app. simpl. lia. }
    assert (Hw2 : heap w2 !! r = Some (dict_set before p chip)).
    { subst w2. unfold _post_init, deref. simpl.
      rewrite Hr, Hp, Ht, init_heap. fold r.
      by rewrite list_lookup_insert_eq. }
    split_and!.
    + rewrite init_result. fold t. fold ports. by rewrite Hs, Hf.
    + done.
    + unfold deref. rewrite Hw2. simpl. apply dict_get_set_same.
    + intros q Hq. unfold deref. rewrite Hw2. simpl.
      by apply dict_get_set_other.
    + intros Hwf. unfold deref. rewrite Hw2. simpl. by apply dict_set_wf.
    + intros r' Hr'. subst w2. unfold _post_init. simpl.
      rewrite Hr. fold r. by rewrite list_lookup_insert_ne.
Qed.

Lemma cache_written_only_by_post_init_witness :
  let w := process [[("/dev/ttyUSB0", "esp8266")]] [] in
  let lib := bench ["/dev/ttyUSB0"] (Some "/dev/ttyUSB0") false in
  heap
    (_post_init
       (EspSerial_init lib (Some "esp32") None None 115200 921600 false false
          (Some 0%nat) w).1).1 !! 0%nat
  = Some [("/dev/ttyUSB0", "esp32")].
Proof.
  intros w lib.
  refine (proj1 (proj2 (proj2 (proj2
            (cache_written_only_by_post_init lib (Some "esp32") None None
               115200 921600 false false (Some 0%nat) w))
            (esp32_rom "/dev/ttyUSB0") _ _ _))).
  - intros r' [= <-]. simpl. lia.
  - reflexivity.
  - vm_compute. reflexivity.
Defined.

(** ** Runs of [use_esptool] *)

Section session_facts.
Variable lib : Library.
Context {R : Type} (func : operation R).

Local Abbreviation try_log := (try_log lib func).
Local Abbreviation session_log := (session_log lib func).

(** The first failure among the cleanup steps of a session is the
    failure of its [finally] block. *)
Lemma cleanup_failure_session b old evs1 r st d evs2 rf pre post :
  try_log b old evs1 r st ->
  finally_log d st evs2 rf ->
  List.filter is_cleanup pre = [] ->
  List.filter is_cleanup post = [] ->
  cleanup_failure (pre ++ evs1 ++ evs2 ++ post) = error_of rf.
Proof.
  intros Ht Hf Hpre Hpost. unfold cleanup_failure.
  rewrite !List.filter_app, Hpre, Hpost. simpl.
  assert (List.filter is_cleanup evs1 = []) as ->.
  { by destruct Ht. }
  simpl. by destruct Hf.
Qed.

Lemma wrapper_try_log (w : World) :
  let '(w1, r) := wrapper_try lib func w in
  exists evs,
    trace w1 = trace w ++ evs
    /\ try_log (baud (self w)) (stub (self w)) evs r (stub (self w1))
    /\ redirect_running w1 = redirect_running w
    /\ is_open (raw w1) = is_open (raw w).
Proof.
  unfold wrapper_try, call_func, on_line, bind, external, update_self, update,
    get_world.
  simpl.
  destruct (detect_chip lib (baud (self w)) (settings (raw w)))
    as [l1 [loader|e]] eqn:Hd; simpl.
  2:{ eexists. split_and!; [done | constructor | done..]. }
  destruct (connect lib loader "hard_reset" l1) as [l2 [[]|e]] eqn:Hc; simpl.
  2:{ eexists. split_and!; [by rewrite <- app_assoc | constructor | done..]. }
  destruct (run_stub lib loader l2) as [l3 [st|e]] eqn:Hs; simpl.
  2:{ eexists. split_and!; [by rewrite <- !app_assoc | constructor | done..]. }
  destruct (func _ l3) as [[s1 l4] r] eqn:Hf; simpl.
  eexists. split_and!; [by rewrite <- !app_assoc | | done..].
  eapply try_func_called with (loader := loader) (l := l2) (st := st);
    [by rewrite Hs | | exact Hf].
  done.
Qed.

Lemma wrapper_finally_log (d : PortSettings) (w : World) :
  let '(w1, r) := wrapper_finally lib d w in
  exists evs,
    trace w1 = trace w ++ evs
    /\ finally_log d (stub (self w)) evs r
    /\ redirect_running w1 = redirect_running w
    /\ (r = Ret tt -> raw w1 = {| is_open := false; settings := d |}).
Proof.
  unfold wrapper_finally, call_stub_hard_reset, apply_settings, close,
    on_line, bind, external.
  destruct (stub (self w)) as [st|] eqn:Hst; simpl.
  2:{ eexists. split_and!; [done | constructor | done..]. }
  destruct (stub_hard_reset lib st (settings (raw w))) as [l1 [[]|e]] eqn:Hh;
    simpl.
  2:{ eexists. split_and!; [done | constructor | done..]. }
  destruct (apply_settings_error lib d l1) as [e|] eqn:Ha; simpl.
  { eexists. split_and!; [by rewrite <- app_assoc | by constructor | done..]. }
  destruct (close_error lib) as [e|] eqn:Hc; simpl.
  { eexists. split_and!; [by rewrite <- !app_assoc | by constructor | done..]. }
  eexists. split_and!; [by rewrite <- !app_assoc | by constructor | done..].
Qed.

(** What a run of the wrapper leaves behind. *)
Lemma use_esptool_log (w : World) :
  let '(w', r) := use_esptool lib func w in
  exists evs,
    trace w' = trace w ++ evs
    /\ session_log (port (self w)) (port_config (self w)) (baud (self w))
         (stub (self w)) evs r
    /\ redirect_running w' = true
    /\ (forall d,
          serial_for_url lib (port (self w)) (port_config (self w)) = Ret d ->
          cleanup_failure evs = None ->
          raw w' = {| is_open := false; settings := d |}).
Proof.
  unfold use_esptool, disable_redirect_serial, stop_redirect, start_redirect,
    open_raw, get_settings, try_finally, bind, external, update.
  simpl.
  destruct (serial_for_url lib (port (self w)) (port_config (self w)))
    as [d|e] eqn:Ho; simpl.
  2:{ eexists. split_and!;
        [by rewrite <- !app_assoc | by constructor | done | done]. }
  match goal with
  | |- context [wrapper_try lib func ?w0] =>
      pose proof (wrapper_try_log w0) as Ht;
      destruct (wrapper_try lib func w0) as [w1 r] eqn:Hw1
  end.
  destruct Ht as (evs1 & Ht1 & Hl1 & Hr1 & Ho1). simpl in *.
  pose proof (wrapper_finally_log d w1) as Hf.
  destruct (wrapper_finally lib d w1) as [w2 rf] eqn:Hw2.
  destruct Hf as (evs2 & Ht2 & Hl2 & Hr2 & Ho2).
  pose proof (session_opened lib func (port (self w)) (port_config (self w))
                (baud (self w)) (stub (self w)) d evs1 r _ evs2 rf Ho Hl1 Hl2)
    as Hlog.
  pose proof (cleanup_failure_session _ _ _ _ _ _ _ _
                [Event stop_redirect_call None;
                 Event (serial_for_url_call (port (self w))) None;
                 Event get_settings_call None]
                [Event start_redirect_call None] Hl1 Hl2 eq_refl eq_refl)
    as Hcf.
  destruct rf as [[]|e]; simpl;
    (exists ([Event stop_redirect_call None;
              Event (serial_for_url_call (port (self w))) None;
              Event get_settings_call None]
             ++ evs1 ++ evs2 ++ [Event start_redirect_call None]);
     split_and!;
     [ rewrite Ht2, Ht1; by rewrite <- !app_assoc
     | exact Hlog
     | done
     | intros d' [= <-] Hc; rewrite Hcf in Hc; by try apply Ho2 ]).
Qed.
End session_facts.

(** From a run to its log. *)
Lemma use_esptool_session {R} (lib : Library) (func : operation R)
    (w w' : World) (r : outcome R) (evs : list event) :
  use_esptool lib func w = (w', r) ->
  trace w' = trace w ++ evs ->
  session_log lib func (port (self w)) (port_config (self w)) (baud (self w))
    (stub (self w)) evs r
  /\ redirect_running w' = true
  /\ (forall d,
        serial_for_url lib (port (self w)) (port_config (self w)) = Ret d ->
        cleanup_failure evs = None ->
        raw w' = {| is_open := false; settings := d |}).
Proof.
  intros Hrun Htrace. pose proof (use_esptool_log lib func w) as H.
  rewrite Hrun in H. destruct H as (evs' & Ht & Hlog & Hred & Hraw).
  rewrite Htrace in Ht. by apply app_inv_head in Ht as ->.
Qed.

Ltac invert_session H :=
  let Ht := fresh "Ht" in
  let Hf := fresh "Hf" in
  inversion H as [? ? | ? ? ? ? ? ? ? Ht Hf]; subst; clear H;
  [ | inversion Ht; subst; clear Ht; inversion Hf; subst; clear Hf ];
  simpl in *.

Ltac in_list H :=
  repeat (apply elem_of_cons in H as [H|H]; [simplify_eq|]);
  try (by apply elem_of_nil in H).

(** ** Claims about [use_esptool] *)

(** C4: in every run of a decorated call the forwarding session is
    started again exactly once, as the last step.  If the operation
    failed with [e], the [finally] block follows it at once, and when its
    three steps succeed the caller gets [e] after them.  If a step of the
    [finally] block failed, the caller gets that failure, whatever the
    operation did. *)
Theorem operation_failure_propagates {R} (lib : Library) (func : operation R)
    (w w' : World) (r : outcome R) (evs : list event) :
  use_esptool lib func w = (w', r) ->
  trace w' = trace w ++ evs ->
  length (List.filter (is_call start_redirect_call) evs) = 1%nat
  /\ last evs = Some (Event start_redirect_call None)
  /\ redirect_running w' = true
  /\ (forall e,
        Event func_call (Some e) ∈ evs ->
        (exists pre st x post,
           evs = pre ++ Event func_call (Some e)
                        :: Event (stub_hard_reset_call st) x :: post)
        /\ (cleanup_failure evs = None ->
            r = Raise e
            /\ exists pre st d,
                 evs = pre ++ [Event func_call (Some e);
                               Event (stub_hard_reset_call (Some st)) None;
                               Event (apply_settings_call d) None;
                               Event close_call None;
                               Event start_redirect_call None]))
  /\ (forall e', cleanup_failure evs = Some e' -> r = Raise e').
Proof.
  intros Hrun Htrace.
  destruct (use_esptool_session lib func w w' r evs Hrun Htrace)
    as (Hlog & Hred & _).
  split_and!; [| | done | |].
  - invert_session Hlog; done.
  - invert_session Hlog; done.
  - intros e He. invert_session Hlog; in_list He.
    all: match goal with
         | Herr : Some _ = error_of ?r0 |- _ =>
             destruct r0; simpl in Herr; simplify_eq
         end.
    all: split;
      [ eexists [_; _; _; _; _; _], _, _, _; reflexivity
      | intros Hc; try discriminate Hc ].
    split; [done|].
    match goal with
    | Hs : is_Some _ |- _ => destruct Hs as [st' ->]
    end.
    eexists [_; _; _; _; _; _], _, _; reflexivity.
  - intros e' He'. invert_session Hlog; try done.
    all: try (match goal with
              | |- context [error_of ?r0] => destruct r0
              | He : context [error_of ?r0] |- _ => destruct r0
              end; simpl in *).
    all: unfold cleanup_failure in He'; simpl in He'; by simplify_eq.
Qed.

Lemma operation_failure_propagates_witness :
  let lib := bench ["/dev/ttyUSB0"] (Some "/dev/ttyUSB0") false in
  let w := attached "/dev/ttyUSB0" None in
  (use_esptool lib failing_func w).2 = Raise (FatalError "flash failed").
Proof.
  intros lib w.
  eassert (Hrun : use_esptool lib failing_func w = (_, _))
    by (vm_compute; reflexivity).
  destruct (operation_failure_propagates lib failing_func w _ _ _ Hrun eq_refl)
    as (_ & _ & _ & H & _).
  destruct (H (FatalError "flash failed")) as [_ H'].
  - repeat constructor.
  - rewrite Hrun. apply H'. reflexivity.
Defined.

(** When no step of the [finally] block fails, the raw connection ends
    closed and with the settings it had when it was opened. *)
Lemma use_esptool_restores {R} (lib : Library) (func : operation R)
    (w w' : World) (r : outcome R) (evs : list event) (d : PortSettings) :
  use_esptool lib func w = (w', r) ->
  trace w' = trace w ++ evs ->
  serial_for_url lib (port (self w)) (port_config (self w)) = Ret d ->
  cleanup_failure evs = None ->
  raw w' = {| is_open := false; settings := d |}.
Proof.
  intros Hrun Htrace Hd Hc.
  destruct (use_esptool_session lib func w w' r evs Hrun Htrace)
    as (_ & _ & Hraw).
  by apply Hraw.
Qed.

(** C2, the code on a path where the claim fails: a device whose
    [self.stub] is still [None] and a chip that does not answer.
    [detect_chip] has set the baud rate and raises; the [finally] block
    then fails on [self.stub.hard_reset()], so neither [apply_settings]
    nor [close] is called: the raw connection stays open and its settings
    are not those of the snapshot. *)
Theorem detection_failure_skips_restore :
  let lib := bench ["/dev/ttyUSB0"] (Some "/dev/ttyUSB0") true in
  let w := attached "/dev/ttyUSB0" None in
  let w' := (hard_reset lib w).1 in
  serial_for_url lib (port (self w)) (port_config (self w))
  = Ret [("baudrate", 9600)]
  /\ (hard_reset lib w).2 = Raise (AttributeError "hard_reset")
  /\ new_events w w'
     = [Event stop_redirect_call None;
        Event (serial_for_url_call "/dev/ttyUSB0") None;
        Event get_settings_call None;
        Event (detect_chip_call 115200)
          (Some (FatalError "Failed to connect"));
        Event (stub_hard_reset_call None) (Some (AttributeError "hard_reset"));
        Event start_redirect_call None]
  /\ raw w' = {| is_open := true; settings := [("baudrate", 115200)] |}.
Proof. vm_compute. done. Qed.

Ltac by_index i :=
  repeat (destruct i as [|i]; simpl in *; simplify_eq; try done).

(** The [try] block of [hard_reset] commands no hard reset. *)
Lemma hard_reset_try_commands_no_reset (lib : Library) (w0 : World) :
  List.filter is_hard_reset
    (new_events w0 (wrapper_try lib hard_reset_func w0).1) = [].
Proof.
  pose proof (wrapper_try_log lib hard_reset_func w0) as H.
  destruct (wrapper_try lib hard_reset_func w0) as [w1 r1].
  destruct H as (evs & Ht & Hl & _). unfold new_events. simpl.
  rewrite Ht, drop_app_length. by destruct Hl.
Qed.

(** The [finally] block begins, on every path, by commanding the hard
    reset through whatever [self.stub] holds. *)
Lemma finally_starts_with_hard_reset (lib : Library) (d : PortSettings)
    (w0 : World) :
  exists x rest,
    new_events w0 (wrapper_finally lib d w0).1
    = Event (stub_hard_reset_call (stub (self w0))) x :: rest.
Proof.
  pose proof (wrapper_finally_log lib d w0) as H.
  destruct (wrapper_finally lib d w0) as [w1 r1].
  destruct H as (evs & Ht & Hl & _). unfold new_events. simpl.
  rewrite Ht, drop_app_length. destruct Hl; eauto.
Qed.

(** C9: the body of [hard_reset] changes nothing and returns [None], so
    its call never fails, and the [try] block around it commands no hard
    reset.  The [finally] block begins on every path by commanding the
    hard reset through [self.stub].  So whenever the raw connection was
    opened, a run of [hard_reset] commands exactly one hard reset, also
    after a failed handshake (then through what [self.stub] held on
    entry); it is the first cleanup step, and when it succeeds the next
    step is [apply_settings] with the snapshot taken at opening.  When
    the body was reached, the command follows it at once and goes to the
    stub that [run_stub] returned. *)
Theorem hard_reset_issued_by_cleanup (lib : Library) (w w' : World)
    (r : outcome unit) (evs : list event) :
  hard_reset lib w = (w', r) ->
  trace w' = trace w ++ evs ->
  (forall s l, hard_reset_func s l = (s, l, Ret tt))
  /\ (forall w0,
        List.filter is_hard_reset
          (new_events w0 (wrapper_try lib hard_reset_func w0).1) = [])
  /\ (forall d w0,
        exists x rest,
          new_events w0 (wrapper_finally lib d w0).1
          = Event (stub_hard_reset_call (stub (self w0))) x :: rest)
  /\ (forall e, Event func_call (Some e) ∉ evs)
  /\ (length (List.filter is_hard_reset evs) <= 1)%nat
  /\ (forall i ev,
        evs !! i = Some ev ->
        is_hard_reset ev = true ->
        List.filter is_cleanup (take i evs) = []
        /\ (ev_error ev = None ->
            exists d x,
              serial_for_url lib (port (self w)) (port_config (self w)) = Ret d
              /\ evs !! S i = Some (Event (apply_settings_call d) x)))
  /\ (Event func_call None ∈ evs ->
      exists loader l st x,
        (run_stub lib loader l).2 = Ret st
        /\ evs !! 6%nat = Some (Event func_call None)
        /\ evs !! 7%nat = Some (Event (stub_hard_reset_call (Some st)) x))
  /\ (Event (serial_for_url_call (port (self w))) None ∈ evs ->
      exists st x,
        List.filter is_hard_reset evs = [Event (stub_hard_reset_call st) x]
        /\ (forall e, handshake_failure evs = Some e -> st = stub (self w))).
Proof.
  intros Hrun Htrace. unfold hard_reset in Hrun.
  destruct (use_esptool_session lib hard_reset_func w w' r evs Hrun Htrace)
    as (Hlog & _ & _).
  split; [done|].
  split; [apply hard_reset_try_commands_no_reset|].
  split; [apply finally_starts_with_hard_reset|].
  invert_session Hlog.
  all: repeat match goal with
         | H : hard_reset_func _ _ = _ |- _ =>
             unfold hard_reset_func in H; simplify_eq
         end.
  all: simpl in *.
  all: split_and!;
    [ let e' := fresh "e" in let He := fresh "He" in
      intros e' He; in_list He
    | lia
    | let i := fresh "i" in let ev := fresh "ev" in
      let Hi := fresh "Hi" in let Hev := fresh "Hev" in
      intros i ev Hi Hev; by_index i; eauto
    | let He := fresh "He" in intros He; in_list He
    | let Ho := fresh "Ho" in intros Ho;
      first
        [ by in_list Ho
        | eexists _, _; split; [reflexivity|];
          let e' := fresh "e" in let He := fresh "He" in
          intros e' He; unfold handshake_failure in He; simpl in He;
          try discriminate He; try done ] ].
  all: match goal with
       | Hst : stub _ = Some _ |- _ => rewrite Hst
       end; eauto 10.
Qed.

Lemma hard_reset_issued_by_cleanup_witness :
  let lib := bench ["/dev/ttyUSB0"] (Some "/dev/ttyUSB0") true in
  let w := attached "/dev/ttyUSB0" (Some (esp32_stub "/dev/ttyUSB0")) in
  exists x,
    List.filter is_hard_reset (new_events w (hard_reset lib w).1)
    = [Event (stub_hard_reset_call (Some (esp32_stub "/dev/ttyUSB0"))) x].
Proof.
  intros lib w.
  eassert (Hrun : hard_reset lib w = (_, _)) by (vm_compute; reflexivity).
  destruct (hard_reset_issued_by_cleanup lib w _ _ _ Hrun eq_refl)
    as (_ & _ & _ & _ & _ & _ & _ & H).
  rewrite Hrun.
  destruct H as (st & x & Hev & Hst); [repeat constructor|].
  pose proof (Hst (FatalError "Failed to connect") eq_refl) as Hold.
  subst st. exists x. exact Hev.
Defined.



(** * Further properties *)

(** ** The normalized target *)

Lemma ascii_lower_not_upper (c : ascii) : is_upper (ascii_lower c) = false.
Proof. destruct c as [[] [] [] [] [] [] [] []]; vm_compute; reflexivity. Qed.

Lemma ascii_lower_hyphen (c : ascii) :
  Ascii.eqb (ascii_lower c) "-" = Ascii.eqb c "-".
Proof. destruct c as [[] [] [] [] [] [] [] []]; vm_compute; reflexivity. Qed.

Lemma ascii_lower_fixed (c : ascii) :
  is_upper c = false -> ascii_lower c = c.
Proof.
  destruct c as [[] [] [] [] [] [] [] []]; vm_compute; congruence.
Qed.

Lemma normalize_target_chars (s : string) :
  forallb is_target_char (list_ascii_of_string (normalize_target s)) = true.
Proof.
  unfold normalize_target. induction s as [|c s IH]; simpl; [done|].
  rewrite ascii_lower_hyphen. destruct (Ascii.eqb c "-") eqn:Hc; simpl.
  - exact IH.
  - rewrite IH. unfold is_target_char.
    by rewrite ascii_lower_not_upper, ascii_lower_hyphen, Hc.
Qed.

Lemma normalize_target_fixed (t : string) :
  forallb is_target_char (list_ascii_of_string t) = true ->
  normalize_target t = t.
Proof.
  unfold normalize_target. induction t as [|c t IH]; simpl; [done|].
  intros [Hc Ht]%andb_prop. unfold is_target_char in Hc.
  apply andb_prop in Hc as [Hu Hh]. apply negb_true_iff in Hu, Hh.
  rewrite ascii_lower_fixed by done. rewrite Hh. by rewrite IH.
Qed.

Lemma normalize_target_length (s : string) :
  (String.length (normalize_target s) <= String.length s)%nat.
Proof.
  unfold normalize_target. induction s as [|c s IH]; simpl; [done|].
  destruct (Ascii.eqb (ascii_lower c) "-"); simpl; [|lia].
  change ("" +:+ replace_char "-" "" (lower s))
    with (replace_char "-" "" (lower s)).
  lia.
Qed.

Lemma ascii_lower_ascii (c : ascii) :
  (nat_of_ascii c <? 128)%nat = true ->
  (nat_of_ascii (ascii_lower c) <? 128)%nat = true.
Proof.
  destruct c as [[] [] [] [] [] [] [] []]; vm_compute; congruence.
Qed.

Lemma normalize_target_ascii (s : string) :
  is_ascii s = true -> is_ascii (normalize_target s) = true.
Proof.
  unfold is_ascii, normalize_target. induction s as [|c s IH]; simpl; [done|].
  intros [Hc Hs]%andb_prop.
  destruct (Ascii.eqb (ascii_lower c) "-"); simpl.
  - by apply IH.
  - by rewrite ascii_lower_ascii, IH.
Qed.

(** X1: for an ASCII chip name, the target a successful [__init__]
    stores is the chip name in lower case without hyphens: it is ASCII,
    holds no capital letter and no hyphen, is no longer than the chip
    name, and normalizing it again changes nothing. *)
Theorem stored_target_is_normalized (lib : Library)
    (target_arg beta_target port_arg : option string)
    (baud_arg esptool_baud_arg : Z) (skip_autoflash_arg erase_all_arg : bool)
    (port_target_cache : option nat) (w : World) (loader : ESPLoader) :
  let t := py_or beta_target target_arg in
  let ports :=
    init_ports lib t port_arg (cache_dict port_target_cache w)
      (occupied_ports w) in
  let w' := (EspSerial_init lib target_arg beta_target port_arg baud_arg
               esptool_baud_arg skip_autoflash_arg erase_all_arg
               port_target_cache w).1 in
  is_ascii (CHIP_NAME loader) = true ->
  py_in t ("auto" :: ESPTOOL_CHIPS lib) = true ->
  get_default_connected_device lib ports port_arg 3 baud_arg t = Some loader ->
  target (self w') = normalize_target (CHIP_NAME loader)
  /\ is_ascii (target (self w')) = true
  /\ forallb is_target_char (list_ascii_of_string (target (self w'))) = true
  /\ normalize_target (target (self w')) = target (self w')
  /\ (String.length (target (self w')) <= String.length (CHIP_NAME loader))%nat.
Proof.
  intros t ports w' Hascii Hs Hf.
  destruct (init_self lib target_arg beta_target port_arg baud_arg
              esptool_baud_arg skip_autoflash_arg erase_all_arg
              port_target_cache w loader Hs Hf) as (_ & _ & Ht & _).
  fold w' in Ht. fold (normalize_target (CHIP_NAME loader)) in Ht.
  rewrite Ht. split_and!.
  - done.
  - by apply normalize_target_ascii.
  - apply normalize_target_chars.
  - apply normalize_target_fixed, normalize_target_chars.
  - apply normalize_target_length.
Qed.

Lemma stored_target_is_normalized_witness :
  let w := process [] [] in
  let lib :=
    {| ESPTOOL_CHIPS := ["esp32"; "esp32s2"]; _ESPTOOL_RAW_VERSION := "3.1";
       get_port_list := ["/dev/ttyUSB0"];
       get_default_connected_device := fun _ _ _ _ _ =>
         Some {| CHIP_NAME := "ESP32-S2"; serial_port := "/dev/ttyUSB0";
                 IS_STUB := false |};
       serial_for_url := fun _ c => Ret c;
       detect_chip := fun _ s => (s, Raise (FatalError "unused"));
       connect := fun _ _ s => (s, Ret tt);
       run_stub := fun l s => (s, Ret l);
       stub_hard_reset := fun _ s => (s, Ret tt);
       apply_settings_error := fun _ _ => None;
       close_error := None |} in
  target
    (self
       (EspSerial_init lib (Some "auto") None None 115200 921600 false false
          None w).1)
  = "esp32s2".
Proof.
  intros w lib.
  refine (proj1 (stored_target_is_normalized lib (Some "auto") None None
                   115200 921600 false false None w
                   {| CHIP_NAME := "ESP32-S2"; serial_port := "/dev/ttyUSB0";
                      IS_STUB := false |} _ _ _)).
  - reflexivity.
  - reflexivity.
  - reflexivity.
Defined.

(** X2: [beta_target] replaces [target] altogether when it is a non-empty
    string, and an empty [beta_target] counts as none: the constructor
    runs exactly as if only the effective target had been passed. *)
Theorem beta_target_overrides_target (lib : Library)
    (target_arg port_arg : option string) (b : string)
    (baud_arg esptool_baud_arg : Z) (skip_autoflash_arg erase_all_arg : bool)
    (port_target_cache : option nat) (w : World) :
  b <> "" ->
  EspSerial_init lib target_arg (Some b) port_arg baud_arg esptool_baud_arg
    skip_autoflash_arg erase_all_arg port_target_cache w
  = EspSerial_init lib (Some b) None port_arg baud_arg esptool_baud_arg
      skip_autoflash_arg erase_all_arg port_target_cache w
  /\ EspSerial_init lib target_arg (Some "") port_arg baud_arg esptool_baud_arg
       skip_autoflash_arg erase_all_arg port_target_cache w
     = EspSerial_init lib target_arg None port_arg baud_arg esptool_baud_arg
         skip_autoflash_arg erase_all_arg port_target_cache w.
Proof.
  intros Hb. split; [|reflexivity].
  assert (Hor : py_or (Some b) target_arg = Some b).
  { unfold py_or, truthy. by destruct (String.eqb_spec b ""). }
  unfold EspSerial_init. by rewrite Hor.
Qed.

Lemma beta_target_overrides_target_witness :
  let w := process [] [] in
  let lib := bench ["/dev/ttyUSB0"] (Some "/dev/ttyUSB0") false in
  EspSerial_init lib (Some "esp8266") (Some "esp32") None 115200 921600 false
    false None w
  = EspSerial_init lib (Some "esp32") None None 115200 921600 false false
      None w.
Proof.
  intros w lib.
  refine (proj1 (beta_target_overrides_target lib (Some "esp8266") None
                   "esp32" 115200 921600 false false None w _)).
  discriminate.
Defined.

(** X3: with an explicit port the constructor does not list the host's
    ports and consults neither the occupied ports nor the cache: when the
    target is supported the one detection call gets the one-element list
    of that port, also when the port is occupied, and otherwise no
    external call is made at all. *)
Theorem explicit_port_skips_discovery (lib : Library)
    (target_arg beta_target : option string) (p : string)
    (baud_arg esptool_baud_arg : Z) (skip_autoflash_arg erase_all_arg : bool)
    (port_target_cache : option nat) (w : World) :
  let t := py_or beta_target target_arg in
  let evs :=
    new_events w
      (EspSerial_init lib target_arg beta_target (Some p) baud_arg
         esptool_baud_arg skip_autoflash_arg erase_all_arg
         port_target_cache w).1 in
  (Event get_port_list_call None ∉ evs)
  /\ (py_in t ("auto" :: ESPTOOL_CHIPS lib) = false -> evs = [])
  /\ (py_in t ("auto" :: ESPTOOL_CHIPS lib) = true ->
      List.filter is_detection evs
      = [Event (get_default_connected_device_call [p] (Some p) 3 baud_arg t)
           None]).
Proof.
  intros t evs. subst evs. rewrite init_new_events. fold t. simpl.
  destruct (py_in t _); simpl.
  - split_and!; [|done|].
    + destruct (get_default_connected_device _ _ _ _ _ _); simpl;
        intros H; in_list H.
    + intros _. by destruct (get_default_connected_device _ _ _ _ _ _).
  - split_and!; [by intros ?%elem_of_nil | done | done].
Qed.

Lemma explicit_port_skips_discovery_witness :
  let w := process [] ["/dev/ttyUSB0"] in
  let lib := bench [] (Some "/dev/ttyUSB0") false in
  List.filter is_detection
    (new_events w
       (EspSerial_init lib (Some "esp32") None (Some "/dev/ttyUSB0") 115200
          921600 false false None w).1)
  = [Event (get_default_connected_device_call ["/dev/ttyUSB0"]
              (Some "/dev/ttyUSB0") 3 115200 (Some "esp32")) None].
Proof.
  intros w lib.
  refine (proj2 (proj2 (explicit_port_skips_discovery lib (Some "esp32") None
                          "/dev/ttyUSB0" 115200 921600 false false None w))
            _).
  reflexivity.
Defined.

(** ** The candidate list and the cache *)

(** X4: the sorted candidate list depends only on which ports are
    available and which are occupied, not on the order or the repetitions
    in which they are listed, nor on the order in which the set
    difference is enumerated before [ports.sort()]. *)
Theorem sorted_ports_order_independent
    (available available' occupied occupied' : list string) :
  (forall p, p ∈ available <-> p ∈ available') ->
  (forall p, p ∈ occupied <-> p ∈ occupied') ->
  sorted_ports available occupied = sorted_ports available' occupied'
  /\ (forall l,
        l ≡ₚ elements (free_ports available occupied) ->
        list_sort String.ltb id l = sorted_ports available occupied).
Proof.
  intros Ha Ho. split.
  - unfold sorted_ports. do 2 f_equal. unfold free_ports.
    apply set_eq. intros p. rewrite !elem_of_difference, !elem_of_list_to_set.
    by rewrite Ha, Ho.
  - intros l Hl. apply (StronglySorted_unique String.le).
    + apply list_sort_sorted.
    + apply sorted_ports_ascending.
    + unfold sorted_ports. by rewrite !list_sort_perm.
Qed.

Lemma sorted_ports_order_independent_witness :
  sorted_ports ["/dev/ttyUSB0"; "/dev/ttyS0"; "/dev/ttyUSB0"] ["/dev/ttyS1"]
  = sorted_ports ["/dev/ttyS0"; "/dev/ttyUSB0"] ["/dev/ttyS1"; "/dev/ttyS1"].
Proof.
  refine (proj1 (sorted_ports_order_independent _ _ _ _ _ _)).
  - intros p. rewrite !elem_of_cons. tauto.
  - intros p. rewrite !elem_of_cons. tauto.
Defined.

Lemma cache_hits_NoDup (t : string) (cache : dict) (l : list string) :
  dict_wf cache -> NoDup (cache_hits t cache l).
Proof.
  unfold dict_wf, dict_keys. induction cache as [|[k v] cache IH]; intros Hwf.
  { constructor. }
  rewrite fmap_cons in Hwf. apply NoDup_cons in Hwf as [Hk Hwf].
  unfold cache_hits. simpl. fold (cache_hits t cache l).
  destruct (String.eqb v t && bool_decide (k ∈ l))%bool; simpl; [|by apply IH].
  apply NoDup_cons. split; [|by apply IH].
  intros H. by apply Hk, (cache_hits_keys t cache l).
Qed.

(** The hits are the candidates whose cached target is [t]. *)
Lemma cache_hits_elem (t : string) (cache : dict) (l : list string)
    (q : string) :
  dict_wf cache ->
  q ∈ cache_hits t cache l <-> q ∈ l /\ dict_get cache q = Some t.
Proof.
  unfold dict_wf, dict_keys. induction cache as [|[k v] cache IH]; intros Hwf.
  { unfold cache_hits. simpl. split; [by intros ?%elem_of_nil | by intros []]. }
  rewrite fmap_cons in Hwf. apply NoDup_cons in Hwf as [Hk Hwf].
  specialize (IH Hwf). unfold cache_hits. simpl. fold (cache_hits t cache l).
  destruct (String.eqb_spec k q) as [->|Hkq].
  - assert (Hq : q ∉ cache_hits t cache l).
    { intros H. by apply Hk, (cache_hits_keys t cache l). }
    destruct (String.eqb_spec v t) as [->|Hv]; simpl.
    + case_bool_decide as Hl; simpl.
      * split; [done | intros _; left].
      * split; [done | by intros []].
    + split; [done | intros [_ ?]; congruence].
  - destruct (String.eqb v t && bool_decide (k ∈ l))%bool; simpl.
    + rewrite elem_of_cons, IH. split; [intros [?|?]; [congruence|done] | auto].
    + apply IH.
Qed.

Lemma dict_set_same_twice (d : dict) (k v : string) :
  dict_set (dict_set d k v) k v = dict_set d k v.
Proof.
  induction d as [|[k' v'] d IH]; simpl.
  - by rewrite String.eqb_refl.
  - destruct (String.eqb k' k) eqn:Hk; simpl; rewrite Hk; [done|].
    by rewrite IH.
Qed.

(** The heap after the hook, on a live reference. *)
Lemma post_init_heap (w : World) :
  let r := _port_target_cache (self w) in
  (r < length (heap w))%nat ->
  deref (_post_init w).1 r
  = dict_set (deref w r) (port (self w)) (target (self w)).
Proof.
  intros r Hr. unfold _post_init, deref. simpl. fold r.
  by rewrite list_lookup_insert_eq.
Qed.

(** X5: [_post_init] never reorders or drops what the cache holds: the
    ports recorded before keep their places, a port not yet recorded is
    appended at the end, the heap keeps its size and every other
    dictionary, and running the hook a second time changes nothing. *)
Theorem post_init_keeps_cache_order (w : World) :
  let r := _port_target_cache (self w) in
  let p := port (self w) in
  let w' := (_post_init w).1 in
  (r < length (heap w))%nat ->
  dict_keys (deref w' r)
  = (if bool_decide (p ∈ dict_keys (deref w r))
     then dict_keys (deref w r)
     else dict_keys (deref w r) ++ [p])
  /\ length (heap w') = length (heap w)
  /\ (forall r', r' <> r -> heap w' !! r' = heap w !! r')
  /\ _post_init w' = (w', Ret tt).
Proof.
  intros r p w' Hr. split_and!.
  - subst w'. rewrite post_init_heap by done. apply dict_set_keys.
  - subst w'. unfold _post_init. simpl. apply length_insert.
  - intros r' Hr'. subst w'. unfold _post_init. simpl. fold r.
    by apply list_lookup_insert_ne.
  - subst w'. unfold _post_init at 1. f_equal.
    assert (Hd : deref (_post_init w).1 (_port_target_cache (self w))
                 = dict_set (deref w r) p (target (self w)))
      by (by apply post_init_heap).
    unfold _post_init in *. simpl in *. fold r in Hd |- *. rewrite Hd.
    rewrite dict_set_same_twice. unfold with_heap. simpl.
    by rewrite list_insert_insert_eq.
Qed.

Lemma post_init_keeps_cache_order_witness :
  let w :=
    with_self (set_flags "esp32" false false 921600
                 (set_port_baud "/dev/ttyUSB1" 115200 blank))
      (process [[("/dev/ttyUSB0", "esp32")]] []) in
  dict_keys (deref (_post_init w).1 0) = ["/dev/ttyUSB0"; "/dev/ttyUSB1"].
Proof.
  intros w.
  refine (proj1 (post_init_keeps_cache_order w _)).
  simpl. lia.
Defined.

Lemma NoDup_only (p : string) (l : list string) :
  NoDup l -> (forall q, q ∈ l <-> q = p) -> l = [p].
Proof.
  intros Hl Hp. destruct l as [|x l].
  { exfalso. by apply (elem_of_nil p), Hp. }
  assert (x = p) as -> by (apply Hp; left).
  f_equal. destruct l as [|y l]; [done|].
  apply NoDup_cons in Hl as [Hx _]. exfalso. apply Hx.
  assert (y = p) as -> by (apply Hp; right; left). left.
Qed.

(** X6: what [_post_init] records steers the next discovery.  Once the
    hook has run for a device on port [p] with target [t], a constructor
    that is given the same cache and the expected target [t] puts [p]
    last in the list it hands to detection, behind the other candidates
    in ascending order, provided [p] is a free candidate and no other
    candidate is cached for [t]. *)
Theorem recorded_port_goes_last (lib : Library) (w : World)
    (baud_arg esptool_baud_arg : Z) (skip_autoflash_arg erase_all_arg : bool) :
  let r := _port_target_cache (self w) in
  let p := port (self w) in
  let t := target (self w) in
  let w2 := (_post_init w).1 in
  let sorted := sorted_ports (get_port_list lib) (occupied_ports w2) in
  let order := List.filter (fun q => negb (String.eqb q p)) sorted ++ [p] in
  (r < length (heap w))%nat ->
  dict_wf (deref w r) ->
  t <> "" ->
  p ∈ sorted ->
  (forall q, q ∈ sorted -> q <> p -> dict_get (deref w r) q <> Some t) ->
  candidate_ports (Some t) (deref w2 r) (get_port_list lib)
    (occupied_ports w2) = order
  /\ (py_in (Some t) ("auto" :: ESPTOOL_CHIPS lib) = true ->
      detection_lists
        (new_events w2
           (EspSerial_init lib (Some t) None None baud_arg esptool_baud_arg
              skip_autoflash_arg erase_all_arg (Some r) w2).1)
      = [order]).
Proof.
  intros r p t w2 sorted order Hr Hwf Ht Hp Hother.
  assert (Hd : deref w2 r = dict_set (deref w r) p t)
    by (by apply post_init_heap).
  assert (Hwf2 : dict_wf (deref w2 r)) by (rewrite Hd; by apply dict_set_wf).
  assert (Hhits : cache_hits t (deref w2 r) sorted = [p]).
  { apply NoDup_only; [by apply cache_hits_NoDup|].
    intros q. rewrite cache_hits_elem by done. rewrite Hd. split.
    - intros [Hq Hget]. destruct (decide (q = p)) as [|Hne]; [done|].
      rewrite dict_get_set_other in Hget by done. by destruct (Hother q).
    - intros ->. split; [done | apply dict_get_set_same]. }
  assert (Hports : candidate_ports (Some t) (deref w2 r) (get_port_list lib)
                     (occupied_ports w2) = order).
  { unfold candidate_ports, prioritize, truthy.
    destruct (String.eqb_spec t "") as [|_]; [done|]. simpl.
    rewrite prioritize_fold by (by try apply sorted_ports_NoDup).
    unfold sorted in Hhits.
    change (occupied_ports w2) with (occupied_ports w) in Hhits.
    rewrite Hhits. unfold order, sorted. f_equal.
    apply filter_ext. intros q. f_equal.
    destruct (String.eqb_spec q p) as [->|Hne].
    - apply bool_decide_eq_true. left.
    - apply bool_decide_eq_false. by intros ->%list_elem_of_singleton. }
  split; [done|]. intros Hs.
  rewrite init_new_events.
  change (py_or None (Some t)) with (Some t). rewrite Hs.
  unfold init_ports, cache_dict, heap_with_cache, cache_ref.
  fold (deref w2 r). rewrite Hports.
  by destruct (get_default_connected_device _ _ _ _ _ _).
Qed.

Lemma recorded_port_goes_last_witness :
  let lib :=
    bench ["/dev/ttyUSB1"; "/dev/ttyUSB0"; "/dev/ttyS0"]
      (Some "/dev/ttyUSB0") false in
  let w :=
    with_self (set_flags "esp32" false false 921600
                 (set_port_baud "/dev/ttyUSB0" 115200 blank))
      (process [[]] []) in
  candidate_ports (Some "esp32") (deref (_post_init w).1 0)
    (get_port_list lib) []
  = ["/dev/ttyS0"; "/dev/ttyUSB1"; "/dev/ttyUSB0"].
Proof.
  intros lib w.
  refine (proj1 (recorded_port_goes_last lib w 115200 921600 false false
                   _ _ _ _ _)).
  - simpl. lia.
  - unfold dict_wf, dict_keys. by_compute.
  - discriminate.
  - by_compute.
  - intros q _ _. discriminate.
Defined.

(** The constructor of the model is the one below with the modelled
    base class constructor put in. *)
Lemma EspSerial_init_with_Serial_init (lib : Library)
    (target_arg beta_target port_arg : option string)
    (baud_arg esptool_baud_arg : Z) (skip_autoflash_arg erase_all_arg : bool)
    (port_target_cache : option nat) :
  EspSerial_init lib target_arg beta_target port_arg baud_arg esptool_baud_arg
    skip_autoflash_arg erase_all_arg port_target_cache
  = EspSerial_init_with lib Serial_init target_arg beta_target port_arg
      baud_arg esptool_baud_arg skip_autoflash_arg erase_all_arg
      port_target_cache.
Proof. reflexivity. Qed.

(** X7: what [__init__] has done when it calls the constructor of the
    base class, whatever that constructor does.  When the target is
    supported and a device is found, the run is the base constructor
    called with the port the library reports and the given baud rate, in
    a world where exactly the port listing (when no port was given), one
    detection call and the closing of the loader's port have been made,
    in this order; [self.esp] and [self.stub] are [None] there, the
    normalized target, the flags and the esptool baud rate are stored,
    and the forwarding session and the raw connection are as before. *)
Theorem construction_before_super_init (lib : Library)
    (super_init : string -> Z -> M unit)
    (target_arg beta_target port_arg : option string)
    (baud_arg esptool_baud_arg : Z) (skip_autoflash_arg erase_all_arg : bool)
    (port_target_cache : option nat) (w : World) (loader : ESPLoader) :
  let t := py_or beta_target target_arg in
  let ports :=
    init_ports lib t port_arg (cache_dict port_target_cache w)
      (occupied_ports w) in
  py_in t ("auto" :: ESPTOOL_CHIPS lib) = true ->
  get_default_connected_device lib ports port_arg 3 baud_arg t = Some loader ->
  exists w0,
    EspSerial_init_with lib super_init target_arg beta_target port_arg
      baud_arg esptool_baud_arg skip_autoflash_arg erase_all_arg
      port_target_cache w
    = super_init (serial_port loader) baud_arg w0
    /\ new_events w w0
       = listing port_arg
         ++ [Event (get_default_connected_device_call ports port_arg 3
                      baud_arg t) None;
             Event loader_port_close_call None]
    /\ esp (self w0) = None
    /\ stub (self w0) = None
    /\ target (self w0) = replace_char "-" "" (lower (CHIP_NAME loader))
    /\ esptool_baud (self w0) = esptool_baud_arg
    /\ skip_autoflash (self w0) = skip_autoflash_arg
    /\ erase_all (self w0) = erase_all_arg
    /\ _port_target_cache (self w0) = cache_ref port_target_cache w
    /\ heap w0 = heap_with_cache port_target_cache w
    /\ redirect_running w0 = redirect_running w
    /\ raw w0 = raw w.
Proof.
  intros t ports Hs Hf. subst ports t. revert Hs Hf.
  unfold EspSerial_init_with, init_ports, listing, cache_dict,
    heap_with_cache, cache_ref, candidate_ports, deref, new_events, bind,
    new_dict, ret, raise, external, update_self, update, get_world.
  destruct port_target_cache, port_arg; simpl; intros Hs Hf;
    rewrite Hs; simpl; rewrite ?Hf; simpl;
    (eexists; split; [reflexivity|]; simpl; split_and!; try done;
     rewrite <- ?app_assoc; by rewrite drop_app_length).
Qed.

Lemma construction_before_super_init_witness :
  let w := process [] [] in
  let lib := bench ["/dev/ttyS0"; "/dev/ttyUSB0"] (Some "/dev/ttyUSB0") false in
  exists w0,
    EspSerial_init lib (Some "esp32") None None 115200 921600 false true
      None w
    = Serial_init "/dev/ttyUSB0" 115200 w0
    /\ stub (self w0) = None.
Proof.
  intros w lib.
  destruct (construction_before_super_init lib Serial_init (Some "esp32")
              None None 115200 921600 false true None w
              (esp32_rom "/dev/ttyUSB0") eq_refl eq_refl)
    as (w0 & Hrun & _ & _ & Hst & _).
  exists w0. split; [exact Hrun | exact Hst].
Defined.

(** ** More about [use_esptool] *)

Ltac session_unfold :=
  unfold hard_reset, use_esptool, disable_redirect_serial, stop_redirect,
    start_redirect, open_raw, get_settings, try_finally, wrapper_try,
    wrapper_finally, call_func, call_stub_hard_reset, apply_settings, close,
    on_line, bind, external, update_self, update, get_world;
  simpl.

(** X8: when the raw connection cannot be opened, the wrapper raises that
    error at once: no chip is detected, the decorated body is not called
    and no cleanup step is attempted; the device object, the raw
    connection and the dictionaries are as before. *)
Theorem open_failure_aborts_session {R} (lib : Library) (func : operation R)
    (w : World) (e : exn) :
  serial_for_url lib (port (self w)) (port_config (self w)) = Raise e ->
  let w' := (use_esptool lib func w).1 in
  (use_esptool lib func w).2 = Raise e
  /\ new_events w w'
     = [Event stop_redirect_call None;
        Event (serial_for_url_call (port (self w))) (Some e);
        Event start_redirect_call None]
  /\ self w' = self w
  /\ raw w' = raw w
  /\ heap w' = heap w.
Proof.
  intros Ho w'. subst w'. unfold new_events. session_unfold. rewrite Ho. simpl.
  split_and!; try done.
  rewrite <- !app_assoc. by rewrite drop_app_length.
Qed.

Lemma open_failure_aborts_session_witness :
  let lib :=
    {| ESPTOOL_CHIPS := ["esp32"]; _ESPTOOL_RAW_VERSION := "3.1";
       get_port_list := [];
       get_default_connected_device := fun _ _ _ _ _ => None;
       serial_for_url := fun _ _ => Raise (SerialException "port is busy");
       detect_chip := fun _ s => (s, Ret (esp32_rom "/dev/ttyUSB0"));
       connect := fun _ _ s => (s, Ret tt);
       run_stub := fun l s => (s, Ret l);
       stub_hard_reset := fun _ s => (s, Ret tt);
       apply_settings_error := fun _ _ => None;
       close_error := None |} in
  let w := attached "/dev/ttyUSB0" None in
  (use_esptool lib hard_reset_func w).2
  = Raise (SerialException "port is busy").
Proof.
  intros lib w.
  refine (proj1 (open_failure_aborts_session lib hard_reset_func w _ _)).
  reflexivity.
Defined.

(** X9: the run in which nothing fails.  The body is called with
    [self.esp] and [self.stub] set to the loader and the stub of this
    session and with the line as esptool left it; what the body does to
    [self] stays, its return value is returned, the stub it leaves in
    [self.stub] is reset, and the raw connection ends closed with the
    settings it was opened with, whatever the body did to the line. *)
Theorem session_without_failure {R} (lib : Library) (func : operation R)
    (w : World) (d l1 l2 l3 l4 l5 : PortSettings) (loader st st' : ESPLoader)
    (s1 : EspSerial) (v : R) :
  serial_for_url lib (port (self w)) (port_config (self w)) = Ret d ->
  detect_chip lib (baud (self w)) d = (l1, Ret loader) ->
  connect lib loader "hard_reset" l1 = (l2, Ret tt) ->
  run_stub lib loader l2 = (l3, Ret st) ->
  func (set_stub (Some st) (set_esp (Some loader) (self w))) l3
  = (s1, l4, Ret v) ->
  stub s1 = Some st' ->
  stub_hard_reset lib st' l4 = (l5, Ret tt) ->
  apply_settings_error lib d l5 = None ->
  close_error lib = None ->
  let w' := (use_esptool lib func w).1 in
  (use_esptool lib func w).2 = Ret v
  /\ self w' = s1
  /\ raw w' = {| is_open := false; settings := d |}
  /\ redirect_running w' = true
  /\ heap w' = heap w
  /\ new_events w w'
     = [Event stop_redirect_call None;
        Event (serial_for_url_call (port (self w))) None;
        Event get_settings_call None;
        Event (detect_chip_call (baud (self w))) None;
        Event (connect_call "hard_reset") None;
        Event run_stub_call None;
        Event func_call None;
        Event (stub_hard_reset_call (Some st')) None;
        Event (apply_settings_call d) None;
        Event close_call None;
        Event start_redirect_call None].
Proof.
  intros Ho Hd Hc Hs Hf Hst Hh Ha Hcl w'. subst w'. unfold new_events.
  session_unfold.
  rewrite Ho. simpl. rewrite Hd. simpl. rewrite Hc. simpl. rewrite Hs. simpl.
  rewrite Hf. simpl. rewrite Hst. simpl. rewrite Hh. simpl. rewrite Ha. simpl.
  rewrite Hcl. simpl.
  split_and!; try done.
  rewrite <- !app_assoc. by rewrite drop_app_length.
Qed.

Lemma session_without_failure_witness :
  let lib := bench ["/dev/ttyUSB0"] (Some "/dev/ttyUSB0") false in
  let w := attached "/dev/ttyUSB0" None in
  raw (use_esptool lib hard_reset_func w).1
  = {| is_open := false; settings := [("baudrate", 9600)] |}.
Proof.
  intros lib w.
  refine (proj1 (proj2 (proj2
            (session_without_failure lib hard_reset_func w
               [("baudrate", 9600)] [("baudrate", 115200)]
               [("baudrate", 115200)] [("baudrate", 115200)]
               [("baudrate", 115200)] [("baudrate", 115200)]
               (esp32_rom "/dev/ttyUSB0") (esp32_stub "/dev/ttyUSB0")
               (esp32_stub "/dev/ttyUSB0") _ tt _ _ _ _ _ _ _ _ _)))).
  all: reflexivity.
Defined.

(** Evaluate a run along every path of the oracles. *)
Ltac session_cases Hrun :=
  unfold hard_reset, hard_reset_func, use_esptool, disable_redirect_serial,
    stop_redirect, start_redirect, open_raw, get_settings, try_finally,
    wrapper_try, wrapper_finally, call_func, call_stub_hard_reset,
    apply_settings, close, on_line, bind, external, update_self, update,
    get_world in Hrun;
  simpl in Hrun;
  repeat (case_match; simpl in *; simplify_eq).

Ltac session_paths Hrun Htrace :=
  session_cases Hrun;
  simpl in Htrace; rewrite <- ?app_assoc in Htrace;
  apply app_inv_head in Htrace; subst; simpl in *.

(** X10: on a device whose [self.stub] is still [None], a failure of
    [detect_chip], [connect] or [run_stub] is not what the caller sees:
    the [finally] block fails on [self.stub.hard_reset()] and the caller
    gets that [AttributeError].  The decorated body has not been called,
    neither [apply_settings] nor [close] is, and the raw connection stays
    open. *)
Theorem missing_stub_masks_handshake_error {R} (lib : Library)
    (func : operation R) (w w' : World) (r : outcome R) (evs : list event)
    (e : exn) :
  use_esptool lib func w = (w', r) ->
  trace w' = trace w ++ evs ->
  stub (self w) = None ->
  handshake_failure evs = Some e ->
  r = Raise (AttributeError "hard_reset")
  /\ List.filter is_cleanup evs
     = [Event (stub_hard_reset_call None)
          (Some (AttributeError "hard_reset"))]
  /\ (forall x, Event func_call x ∉ evs)
  /\ is_open (raw w') = true.
Proof.
  intros Hrun Htrace Hst He.
  session_paths Hrun Htrace.
  all: unfold handshake_failure in He; simpl in He; try discriminate He.
  all: try congruence.
  all: split_and!; try done.
  all: let x := fresh "x" in let Hx := fresh "Hx" in
       intros x Hx; in_list Hx.
Qed.

Lemma missing_stub_masks_handshake_error_witness :
  let lib := bench ["/dev/ttyUSB0"] (Some "/dev/ttyUSB0") true in
  let w := attached "/dev/ttyUSB0" None in
  (use_esptool lib failing_func w).2 = Raise (AttributeError "hard_reset").
Proof.
  intros lib w.
  eassert (Hrun : use_esptool lib failing_func w = (_, _))
    by (vm_compute; reflexivity).
  rewrite Hrun.
  refine (proj1 (missing_stub_masks_handshake_error lib failing_func w _ _ _
                   (FatalError "Failed to connect") Hrun eq_refl _ _)).
  - reflexivity.
  - reflexivity.
Defined.

(** X11: [self.stub] is not cleared between sessions.  When the
    handshake of a session fails on a device that still holds the stub
    [old] of an earlier session, the one hard reset of that session is
    commanded through [old]; the decorated body is not called, and when
    the cleanup succeeds the caller gets the handshake's error and the
    raw connection ends closed with the settings it was opened with. *)
Theorem stale_stub_is_reset_after_failed_handshake {R} (lib : Library)
    (func : operation R) (w w' : World) (r : outcome R) (evs : list event)
    (e : exn) (old : ESPLoader) :
  use_esptool lib func w = (w', r) ->
  trace w' = trace w ++ evs ->
  stub (self w) = Some old ->
  handshake_failure evs = Some e ->
  (exists x,
     List.filter is_hard_reset evs
     = [Event (stub_hard_reset_call (Some old)) x])
  /\ (forall x, Event func_call x ∉ evs)
  /\ (cleanup_failure evs = None ->
      r = Raise e
      /\ exists d,
           serial_for_url lib (port (self w)) (port_config (self w)) = Ret d
           /\ raw w' = {| is_open := false; settings := d |}).
Proof.
  intros Hrun Htrace Hst He.
  session_paths Hrun Htrace.
  all: unfold handshake_failure in He; simpl in He; try discriminate He.
  all: try congruence.
  all: simplify_eq.
  all: split_and!; [ by eexists | | ].
  all: try (let x := fresh "x" in let Hx := fresh "Hx" in
            intros x Hx; in_list Hx).
  all: let Hc := fresh "Hc" in
       intros Hc; unfold cleanup_failure in Hc; simpl in Hc;
       try discriminate Hc; eauto.
Qed.

Lemma stale_stub_is_reset_after_failed_handshake_witness :
  let lib := bench ["/dev/ttyUSB0"] (Some "/dev/ttyUSB0") true in
  let w := attached "/dev/ttyUSB0" (Some (esp32_stub "/dev/ttyUSB0")) in
  (use_esptool lib failing_func w).2 = Raise (FatalError "Failed to connect").
Proof.
  intros lib w.
  eassert (Hrun : use_esptool lib failing_func w = (_, _))
    by (vm_compute; reflexivity).
  rewrite Hrun.
  destruct (stale_stub_is_reset_after_failed_handshake lib failing_func w _ _
              _ (FatalError "Failed to connect") (esp32_stub "/dev/ttyUSB0")
              Hrun eq_refl eq_refl eq_refl) as (_ & _ & H).
  exact (proj1 (H eq_refl)).
Defined.

(** A hard reset leaves the device on its port, and a stub in [self.stub]
    whenever it returns or found one there. *)
Lemma hard_reset_self (lib : Library) (w w' : World) (r : outcome unit) :
  hard_reset lib w = (w', r) ->
  port (self w') = port (self w)
  /\ port_config (self w') = port_config (self w)
  /\ baud (self w') = baud (self w)
  /\ (r = Ret tt -> is_Some (stub (self w')))
  /\ (is_Some (stub (self w)) -> is_Some (stub (self w'))).
Proof.
  intros Hrun. session_cases Hrun.
  all: split_and!; try done; eauto.
Qed.

(** X12: two hard resets in a row; [lib2] is how the collaborators
    behave during the second one, which need not be how they behaved
    during the first.  After a [hard_reset] in which no call failed, a
    second [hard_reset] never runs into the [AttributeError] of an empty
    [self.stub], whatever fails in it: once the raw connection is open
    its one hard reset goes through a stub.  When no call fails in it
    either, it returns [None] and leaves the raw connection closed with
    the settings of its own opening, which is exactly how the first one
    left it if the port opens with the same settings. *)
Theorem hard_reset_twice (lib lib2 : Library) (w w1 w2 : World)
    (r1 r2 : outcome unit) (evs1 evs2 : list event) :
  hard_reset lib w = (w1, r1) ->
  trace w1 = trace w ++ evs1 ->
  failures evs1 = [] ->
  hard_reset lib2 w1 = (w2, r2) ->
  trace w2 = trace w1 ++ evs2 ->
  (forall x, Event (stub_hard_reset_call None) x ∉ evs2)
  /\ (Event (serial_for_url_call (port (self w))) None ∈ evs2 ->
      exists st x,
        List.filter is_hard_reset evs2
        = [Event (stub_hard_reset_call (Some st)) x])
  /\ (failures evs2 = [] ->
      r2 = Ret tt
      /\ is_open (raw w2) = false
      /\ (exists d2,
            serial_for_url lib2 (port (self w)) (port_config (self w))
            = Ret d2
            /\ raw w2 = {| is_open := false; settings := d2 |})
      /\ (serial_for_url lib2 (port (self w)) (port_config (self w))
          = serial_for_url lib (port (self w)) (port_config (self w)) ->
          raw w2 = raw w1)).
Proof.
  intros Hrun1 Ht1 Hok1 Hrun2 Ht2.
  destruct (hard_reset_self lib w w1 r1 Hrun1) as (Hp & Hc & _ & Hst1 & _).
  unfold hard_reset in Hrun1, Hrun2.
  destruct (use_esptool_session lib hard_reset_func w w1 r1 evs1 Hrun1 Ht1)
    as (Hlog1 & _ & Hraw1).
  destruct (use_esptool_session lib2 hard_reset_func w1 w2 r2 evs2 Hrun2 Ht2)
    as (Hlog2 & _ & Hraw2).
  assert (Hfirst : r1 = Ret tt
                   /\ exists d,
                        serial_for_url lib (port (self w))
                          (port_config (self w)) = Ret d
                        /\ raw w1 = {| is_open := false; settings := d |}).
  { clear Hlog2 Hraw2. invert_session Hlog1; try discriminate Hok1.
    all: repeat match goal with
           | H : hard_reset_func _ _ = _ |- _ =>
               unfold hard_reset_func in H; simplify_eq
           end.
    all: simpl in *; try discriminate Hok1.
    split; [done|]. eexists. split; [done|]. by apply Hraw1. }
  destruct Hfirst as (-> & d & Hd & Hw1).
  destruct (Hst1 eq_refl) as [st Hst].
  rewrite Hp, Hc in Hlog2, Hraw2. rewrite Hst in Hlog2.
  split_and!.
  - intros x Hx. clear Hraw2. invert_session Hlog2.
    all: repeat match goal with
           | H : hard_reset_func _ _ = _ |- _ =>
               unfold hard_reset_func in H; simplify_eq
           end.
    all: try match goal with
           | H : stub _ = Some _ |- _ => rewrite H in Hx
           end.
    all: in_list Hx.
  - intros Ho. clear Hraw2. invert_session Hlog2.
    all: repeat match goal with
           | H : hard_reset_func _ _ = _ |- _ =>
               unfold hard_reset_func in H; simplify_eq
           end.
    all: try match goal with
           | H : stub _ = Some _ |- _ => rewrite H
           end.
    all: first [ by in_list Ho | by eexists _, _ ].
  - intros Hok2.
    assert (Hsecond : r2 = Ret tt
                      /\ cleanup_failure evs2 = None
                      /\ exists d2,
                           serial_for_url lib2 (port (self w))
                             (port_config (self w)) = Ret d2).
    { clear Hraw2. invert_session Hlog2; try discriminate Hok2.
      all: repeat match goal with
             | H : hard_reset_func _ _ = _ |- _ =>
                 unfold hard_reset_func in H; simplify_eq
             end.
      all: simpl in *; try discriminate Hok2.
      split_and!; [done | done | by eexists]. }
    destruct Hsecond as (-> & Hcf & d2 & Hd2).
    pose proof (Hraw2 d2 Hd2 Hcf) as Hw2.
    split_and!.
    + done.
    + by rewrite Hw2.
    + by exists d2.
    + intros Hsame. rewrite Hw2, Hw1. rewrite Hd2, Hd in Hsame.
      by injection Hsame as ->.
Qed.

Lemma hard_reset_twice_witness :
  let lib := bench ["/dev/ttyUSB0"] (Some "/dev/ttyUSB0") false in
  let lib2 := bench ["/dev/ttyUSB0"] (Some "/dev/ttyUSB0") true in
  let w := attached "/dev/ttyUSB0" None in
  (hard_reset lib2 (hard_reset lib w).1).2
  = Raise (FatalError "Failed to connect")
  /\ (Event (stub_hard_reset_call None) (Some (AttributeError "hard_reset"))
      ∉ new_events (hard_reset lib w).1
          (hard_reset lib2 (hard_reset lib w).1).1).
Proof.
  intros lib lib2 w.
  eassert (Hrun1 : hard_reset lib w = (_, _)) by (vm_compute; reflexivity).
  rewrite Hrun1. cbn [fst].
  match goal with
  | |- (hard_reset lib2 ?w1).2 = _ /\ _ =>
      eassert (Hrun2 : hard_reset lib2 w1 = (_, _))
        by (vm_compute; reflexivity)
  end.
  rewrite Hrun2. split; [reflexivity|].
  destruct (hard_reset_twice lib lib2 w _ _ _ _ _ _ Hrun1 eq_refl eq_refl
              Hrun2 eq_refl) as [H _].
  exact (H (Some (AttributeError "hard_reset"))).
Defined.

(** X13: whatever the decorated body does to the line, the settings that
    the [finally] block reapplies are the ones captured right after the
    raw connection was opened; they are reapplied only after a hard reset
    that succeeded, and the connection is closed only after they were
    reapplied. *)
Theorem reapplied_settings_are_the_snapshot {R} (lib : Library)
    (func : operation R) (w w' : World) (r : outcome R) (evs : list event) :
  use_esptool lib func w = (w', r) ->
  trace w' = trace w ++ evs ->
  (forall d x,
     Event (apply_settings_call d) x ∈ evs ->
     serial_for_url lib (port (self w)) (port_config (self w)) = Ret d
     /\ exists st, Event (stub_hard_reset_call (Some st)) None ∈ evs)
  /\ (forall x,
        Event close_call x ∈ evs ->
        exists d, Event (apply_settings_call d) None ∈ evs).
Proof.
  intros Hrun Htrace.
  destruct (use_esptool_session lib func w w' r evs Hrun Htrace)
    as (Hlog & _ & _).
  split.
  - intros d' x Hx. invert_session Hlog.
    all: repeat match goal with
           | Hs : is_Some _ |- _ => destruct Hs as [? ->]
           end.
    all: in_list Hx.
    all: split; [done|]; eexists; repeat constructor.
  - intros x Hx. invert_session Hlog.
    all: in_list Hx.
    all: eexists; repeat constructor.
Qed.

Lemma reapplied_settings_are_the_snapshot_witness :
  let lib := bench ["/dev/ttyUSB0"] (Some "/dev/ttyUSB0") false in
  let w := attached "/dev/ttyUSB0" None in
  exists st,
    Event (stub_hard_reset_call (Some st)) None
    ∈ new_events w (use_esptool lib failing_func w).1.
Proof.
  intros lib w.
  eassert (Hrun : use_esptool lib failing_func w = (_, _))
    by (vm_compute; reflexivity).
  rewrite Hrun.
  destruct (reapplied_settings_are_the_snapshot lib failing_func w _ _ _ Hrun
              eq_refl) as [H _].
  refine (proj2 (H [("baudrate", 9600)] None _)).
  repeat constructor.
Defined.

(** X14: a failed [connect] leaves the device half updated: [self.esp] is
    the loader detected in this session while [self.stub] is still the
    stub of the earlier one, through which the hard reset is commanded.
    The body is not called, the caller gets the error of [connect], and
    the raw connection is restored and closed. *)
Theorem failed_connect_keeps_new_loader {R} (lib : Library)
    (func : operation R) (w : World) (d l1 l2 l3 : PortSettings)
    (loader old : ESPLoader) (e : exn) :
  serial_for_url lib (port (self w)) (port_config (self w)) = Ret d ->
  detect_chip lib (baud (self w)) d = (l1, Ret loader) ->
  connect lib loader "hard_reset" l1 = (l2, Raise e) ->
  stub (self w) = Some old ->
  stub_hard_reset lib old l2 = (l3, Ret tt) ->
  apply_settings_error lib d l3 = None ->
  close_error lib = None ->
  let w' := (use_esptool lib func w).1 in
  (use_esptool lib func w).2 = Raise e
  /\ esp (self w') = Some loader
  /\ stub (self w') = Some old
  /\ self w' = set_esp (Some loader) (self w)
  /\ raw w' = {| is_open := false; settings := d |}
  /\ new_events w w'
     = [Event stop_redirect_call None;
        Event (serial_for_url_call (port (self w))) None;
        Event get_settings_call None;
        Event (detect_chip_call (baud (self w))) None;
        Event (connect_call "hard_reset") (Some e);
        Event (stub_hard_reset_call (Some old)) None;
        Event (apply_settings_call d) None;
        Event close_call None;
        Event start_redirect_call None].
Proof.
  intros Ho Hd Hc Hst Hh Ha Hcl w'. subst w'. unfold new_events.
  session_unfold.
  rewrite Ho. simpl. rewrite Hd. simpl. rewrite Hc. simpl. rewrite Hst. simpl.
  rewrite Hh. simpl. rewrite Ha. simpl. rewrite Hcl. simpl.
  split_and!; try done.
  rewrite <- !app_assoc. by rewrite drop_app_length.
Qed.

Lemma failed_connect_keeps_new_loader_witness :
  let lib :=
    {| ESPTOOL_CHIPS := ["esp32"]; _ESPTOOL_RAW_VERSION := "3.1";
       get_port_list := [];
       get_default_connected_device := fun _ _ _ _ _ => None;
       serial_for_url := fun _ c => Ret c;
       detect_chip := fun b _ =>
         ([("baudrate", b)], Ret (esp32_rom "/dev/ttyUSB0"));
       connect := fun _ _ s => (s, Raise (FatalError "no sync"));
       run_stub := fun l s => (s, Ret l);
       stub_hard_reset := fun _ s => (s, Ret tt);
       apply_settings_error := fun _ _ => None;
       close_error := None |} in
  let w := attached "/dev/ttyUSB0" (Some (esp32_stub "/dev/ttyUSB0")) in
  esp (self (use_esptool lib hard_reset_func w).1)
  = Some (esp32_rom "/dev/ttyUSB0")
  /\ stub (self (use_esptool lib hard_reset_func w).1)
     = Some (esp32_stub "/dev/ttyUSB0").
Proof.
  intros lib w.
  destruct (failed_connect_keeps_new_loader lib hard_reset_func w
              [("baudrate", 9600)] [("baudrate", 115200)]
              [("baudrate", 115200)] [("baudrate", 115200)]
              (esp32_rom "/dev/ttyUSB0") (esp32_stub "/dev/ttyUSB0")
              (FatalError "no sync") eq_refl eq_refl eq_refl eq_refl eq_refl
              eq_refl eq_refl) as (_ & He & Hs & _).
  exact (conj He Hs).
Defined.


